(** * AtracsysFusionTrackVrepPlugin: a shallow embedding

    The class [grl::AtracsysFusionTrackVrepPlugin]
    (include/grl/vrep/AtracsysFusionTrackVrepPlugin.hpp) polls an optical
    tracker in a driver thread, forwards the measured marker poses to the
    simulator from [run_one], and records the received frames in memory
    until [save_recording] hands them to a save thread.

    The member functions become functions on an explicit [Plugin] record
    (one field per data member, same names).  A C++ call ends in one of
    three ways, [outcome]: it returns, it throws, or the process is lost
    (null dereference, failed BOOST_VERIFY, std::terminate, running off the
    end of a function that owes a value).  Every member
    function that touches shared data holds [m_frameAccess] for its whole
    body, so the calls of the two threads are interleaved as atomic steps;
    the mutex itself is not represented.

    Code that the header only calls (the device driver, the simulator's
    handle lookup, Eigen, the flatbuffers builder, boost::lexical_cast) is
    gathered in the class [Collaborators]; every definition and theorem is
    generic in it.  The simulator's [setObjectTransform] is seen through the
    list of calls made to it, the clock through the string it gives. *)

From Stdlib Require Import ZArith.
From stdpp Require Import base option list strings gmap.

Local Open Scope Z_scope.

(** ** Exceptions and outcomes *)

Inductive exception : Type :=
  | runtime_error (what : string)
  | bad_lexical_cast
  | system_error (what : string)
  | device_error (code : Z).

Inductive outcome (A : Type) : Type :=
  | Returned (a : A)
  | Threw (e : exception)
  | Crashed.

Arguments Returned {A} a.
Arguments Threw {A} e.
Arguments Crashed {A}.

Global Instance outcome_ret : MRet outcome := fun A a => Returned a.

Global Instance outcome_bind : MBind outcome := fun A B k x =>
  match x with
  | Returned a => k a
  | Threw e => Threw e
  | Crashed => Crashed
  end.

(** Did the call return? *)
Definition returns {A : Type} (x : outcome A) : bool :=
  match x with
  | Returned _ => true
  | _ => false
  end.

(** ** Motion configuration *)

(** [MotionConfigParams]: (ObjectToMove, FrameInWhichToMoveObject,
    ObjectBeingMeasured, GeometryID), all strings. *)
Record MotionConfigParams : Type := make_tuple4 {
  ObjectToMoveName : string;
  FrameInWhichToMoveObjectName : string;
  ObjectBeingMeasuredName : string;
  GeometryIDName : string
}.

(** [VrepMotionConfigTuple]: the three resolved simulator handles. *)
Record VrepMotionConfigTuple : Type := make_tuple {
  ObjectToMove : Z;
  FrameInWhichToMoveObject : Z;
  ObjectBeingMeasured : Z
}.

Global Instance VrepMotionConfigTuple_eq_dec : EqDecision VrepMotionConfigTuple.
Proof. solve_decision. Defined.

(** The text thrown by [run_one] for a configuration it does not support. *)
Definition unsupported_what : string :=
  "AtracsysFusionTrackVrepPlugin: moving objects other than those being measured and the base itself are not yet supported.".

(** ** Threads *)

(** A [std::thread] handle.  [joinable] is what [std::thread::joinable]
    answers; [finished] tells whether the thread function has returned. *)
Record thread : Type := mkThread {
  joinable : bool;
  finished : bool
}.

(** A thread just made by the [std::thread] constructor. *)
Definition spawned : thread := {| joinable := true; finished := false |}.

(** [std::thread::join]: throws [std::system_error] on a handle that is not
    joinable, otherwise waits until the thread function has returned. *)
Definition join (t : thread) : outcome thread :=
  if joinable t
  then Returned {| joinable := false; finished := true |}
  else Threw (system_error "Invalid argument").

(** ** Frames and simulator calls *)

(** A detected marker ([ftkMarker]): its geometry id and the measured pose. *)
Record ftkMarker (Pose : Type) : Type := mkMarker {
  geometryId : Z;
  pose : Pose
}.

Arguments mkMarker {Pose} _ _.
Arguments geometryId {Pose} _.
Arguments pose {Pose} _.

(** [FusionTrack::Frame], as far as the plugin reads it: the markers in
    device order. *)
Record Frame (Pose : Type) : Type := mkFrame {
  Markers : list (ftkMarker Pose)
}.

Arguments mkFrame {Pose} _.
Arguments Markers {Pose} _.

(** One call of the simulator's [setObjectTransform]. *)
Record Call (Affine3f : Type) : Type := setObjectTransform {
  call_object : Z;
  call_frame : Z;
  call_transform : Affine3f
}.

Arguments setObjectTransform {Affine3f} _ _ _.
Arguments call_object {Affine3f} _.
Arguments call_frame {Affine3f} _.
Arguments call_transform {Affine3f} _.

(** ** The code the header calls *)

Class Collaborators : Type := {
  (** [Eigen::Affine3f] and its [inverse()]. *)
  Affine3f : Type;
  inverse : Affine3f -> Affine3f;
  (** What a marker carries besides its geometry id, and
      [sensor::ftkMarkerToAffine3f]. *)
  Pose : Type;
  ftkMarkerToAffine3f : ftkMarker Pose -> Affine3f;
  (** [grl::vrep::getHandle]: the simulator handle of a named object; throws
      for a name the simulator does not know. *)
  getHandle : string -> outcome Z;
  (** [boost::lexical_cast<int>]: throws [bad_lexical_cast] on a string that
      is not an int. *)
  lexical_cast_int : string -> outcome Z;
  (** The device driver [grl::sensor::FusionTrack]: its parameters, its
      constructor (which connects) and [makeFramePtr]. *)
  FusionTrackParams : Type;
  FusionTrack_defaultParams : FusionTrackParams;
  FusionTrack_emptyDefaultParams : FusionTrackParams;
  FusionTrack : Type;
  new_FusionTrack : FusionTrackParams -> outcome FusionTrack;
  makeFramePtr : FusionTrack -> outcome (Frame Pose);
  (** [flatbuffers::FlatBufferBuilder], the offsets it hands out, and
      [grl::toFlatBuffer], which writes one frame into a builder. *)
  FlatBufferBuilder : Type;
  new_FlatBufferBuilder : FlatBufferBuilder;
  Offset : Type;
  toFlatBuffer :
    FlatBufferBuilder -> FusionTrack -> Frame Pose -> FlatBufferBuilder * Offset;
  (** The bytes of a finished log: [CreateVector],
      [CreateLogKUKAiiwaFusionTrack] and [Finish] applied to a builder and
      the offsets of its messages. *)
  LogFile : Type;
  Finish : FlatBufferBuilder -> list Offset -> LogFile
}.

(** ** The plugin *)

Section Plugin.

Context `{Collaborators}.

Record Params : Type := mkParams {
  FusionTrackParams_ : FusionTrackParams;
  OpticalTrackerBase : string;
  MotionConfigParamsVector : list MotionConfigParams
}.

Definition emptyDefaultParams : Params :=
  {| FusionTrackParams_ := FusionTrack_emptyDefaultParams;
     OpticalTrackerBase := "OpticalTrackerBase#0";
     MotionConfigParamsVector := [] |}.

Definition moveTrackerParams : Params :=
  {| FusionTrackParams_ := FusionTrack_defaultParams;
     OpticalTrackerBase := "OpticalTrackerBase#0";
     MotionConfigParamsVector :=
       [make_tuple4 "Fiducial#22" "OpticalTrackerBase#0" "Fiducial#22" "22"] |}.

Definition moveBoneParams : Params :=
  {| FusionTrackParams_ := FusionTrack_defaultParams;
     OpticalTrackerBase := "OpticalTrackerBase#0";
     MotionConfigParamsVector :=
       [make_tuple4 "OpticalTrackerBase#0" "Fiducial#55" "Fiducial#55" "55"] |}.

Definition defaultParams : Params := moveBoneParams.

(** What the lambda of [save_recording] captures, and the thread that
    runs it. *)
Record SaveThread : Type := mkSaveThread {
  save_fbbP : option FlatBufferBuilder;
  save_KUKAiiwaFusionTrackMessageBufferP : option (list Offset);
  filename : string;
  saveLogThread : thread
}.

(** The data members.  [m_geometryIDToVrepMotionConfigMap] is a
    [std::map<int, VrepMotionConfigTuple>]. *)
Record Plugin : Type := mkPlugin {
  params_ : Params;
  m_opticalTrackerBase : Z;
  opticalTrackerP : option FusionTrack;
  allHandlesSet : bool;
  isConnectionEstablished_ : bool;
  m_receivedFrame : option (Frame Pose);
  m_nextState : option (Frame Pose);
  m_logFileBufferBuilderP : option FlatBufferBuilder;
  m_KUKAiiwaFusionTrackMessageBufferP : option (list Offset);
  m_shouldStop : bool;
  m_isRecording : bool;
  exceptionPtr : option exception;
  m_driverThread : option thread;
  m_saveRecordingThreads : list SaveThread;
  m_geometryIDToVrepMotionConfigMap : gmap Z VrepMotionConfigTuple
}.

(** Assignments to single members. *)
Definition set_m_opticalTrackerBase (base : Z) (st : Plugin) : Plugin :=
  mkPlugin (params_ st) base (opticalTrackerP st)
    (allHandlesSet st) (isConnectionEstablished_ st) (m_receivedFrame st)
    (m_nextState st) (m_logFileBufferBuilderP st)
    (m_KUKAiiwaFusionTrackMessageBufferP st) (m_shouldStop st)
    (m_isRecording st) (exceptionPtr st) (m_driverThread st)
    (m_saveRecordingThreads st) (m_geometryIDToVrepMotionConfigMap st).

Definition set_allHandlesSet (b : bool) (st : Plugin) : Plugin :=
  mkPlugin (params_ st) (m_opticalTrackerBase st) (opticalTrackerP st)
    b (isConnectionEstablished_ st) (m_receivedFrame st)
    (m_nextState st) (m_logFileBufferBuilderP st)
    (m_KUKAiiwaFusionTrackMessageBufferP st) (m_shouldStop st)
    (m_isRecording st) (exceptionPtr st) (m_driverThread st)
    (m_saveRecordingThreads st) (m_geometryIDToVrepMotionConfigMap st).

Definition set_map (m : gmap Z VrepMotionConfigTuple) (st : Plugin) : Plugin :=
  mkPlugin (params_ st) (m_opticalTrackerBase st) (opticalTrackerP st)
    (allHandlesSet st) (isConnectionEstablished_ st) (m_receivedFrame st)
    (m_nextState st) (m_logFileBufferBuilderP st)
    (m_KUKAiiwaFusionTrackMessageBufferP st) (m_shouldStop st)
    (m_isRecording st) (exceptionPtr st) (m_driverThread st)
    (m_saveRecordingThreads st) m.

Definition set_opticalTrackerP (d : option FusionTrack) (st : Plugin) : Plugin :=
  mkPlugin (params_ st) (m_opticalTrackerBase st) d
    (allHandlesSet st) (isConnectionEstablished_ st) (m_receivedFrame st)
    (m_nextState st) (m_logFileBufferBuilderP st)
    (m_KUKAiiwaFusionTrackMessageBufferP st) (m_shouldStop st)
    (m_isRecording st) (exceptionPtr st) (m_driverThread st)
    (m_saveRecordingThreads st) (m_geometryIDToVrepMotionConfigMap st).

Definition set_isConnectionEstablished_ (b : bool) (st : Plugin) : Plugin :=
  mkPlugin (params_ st) (m_opticalTrackerBase st) (opticalTrackerP st)
    (allHandlesSet st) b (m_receivedFrame st)
    (m_nextState st) (m_logFileBufferBuilderP st)
    (m_KUKAiiwaFusionTrackMessageBufferP st) (m_shouldStop st)
    (m_isRecording st) (exceptionPtr st) (m_driverThread st)
    (m_saveRecordingThreads st) (m_geometryIDToVrepMotionConfigMap st).

Definition set_frames (cur next : option (Frame Pose)) (st : Plugin) : Plugin :=
  mkPlugin (params_ st) (m_opticalTrackerBase st) (opticalTrackerP st)
    (allHandlesSet st) (isConnectionEstablished_ st) cur next
    (m_logFileBufferBuilderP st)
    (m_KUKAiiwaFusionTrackMessageBufferP st) (m_shouldStop st)
    (m_isRecording st) (exceptionPtr st) (m_driverThread st)
    (m_saveRecordingThreads st) (m_geometryIDToVrepMotionConfigMap st).

Definition set_recording_buffer (b : option FlatBufferBuilder)
    (v : option (list Offset)) (st : Plugin) : Plugin :=
  mkPlugin (params_ st) (m_opticalTrackerBase st) (opticalTrackerP st)
    (allHandlesSet st) (isConnectionEstablished_ st) (m_receivedFrame st)
    (m_nextState st) b v (m_shouldStop st)
    (m_isRecording st) (exceptionPtr st) (m_driverThread st)
    (m_saveRecordingThreads st) (m_geometryIDToVrepMotionConfigMap st).

Definition set_m_shouldStop (b : bool) (st : Plugin) : Plugin :=
  mkPlugin (params_ st) (m_opticalTrackerBase st) (opticalTrackerP st)
    (allHandlesSet st) (isConnectionEstablished_ st) (m_receivedFrame st)
    (m_nextState st) (m_logFileBufferBuilderP st)
    (m_KUKAiiwaFusionTrackMessageBufferP st) b
    (m_isRecording st) (exceptionPtr st) (m_driverThread st)
    (m_saveRecordingThreads st) (m_geometryIDToVrepMotionConfigMap st).

Definition set_m_isRecording (b : bool) (st : Plugin) : Plugin :=
  mkPlugin (params_ st) (m_opticalTrackerBase st) (opticalTrackerP st)
    (allHandlesSet st) (isConnectionEstablished_ st) (m_receivedFrame st)
    (m_nextState st) (m_logFileBufferBuilderP st)
    (m_KUKAiiwaFusionTrackMessageBufferP st) (m_shouldStop st)
    b (exceptionPtr st) (m_driverThread st)
    (m_saveRecordingThreads st) (m_geometryIDToVrepMotionConfigMap st).

Definition set_exceptionPtr (e : option exception) (st : Plugin) : Plugin :=
  mkPlugin (params_ st) (m_opticalTrackerBase st) (opticalTrackerP st)
    (allHandlesSet st) (isConnectionEstablished_ st) (m_receivedFrame st)
    (m_nextState st) (m_logFileBufferBuilderP st)
    (m_KUKAiiwaFusionTrackMessageBufferP st) (m_shouldStop st)
    (m_isRecording st) e (m_driverThread st)
    (m_saveRecordingThreads st) (m_geometryIDToVrepMotionConfigMap st).

Definition set_m_driverThread (t : option thread) (st : Plugin) : Plugin :=
  mkPlugin (params_ st) (m_opticalTrackerBase st) (opticalTrackerP st)
    (allHandlesSet st) (isConnectionEstablished_ st) (m_receivedFrame st)
    (m_nextState st) (m_logFileBufferBuilderP st)
    (m_KUKAiiwaFusionTrackMessageBufferP st) (m_shouldStop st)
    (m_isRecording st) (exceptionPtr st) t
    (m_saveRecordingThreads st) (m_geometryIDToVrepMotionConfigMap st).

Definition set_m_saveRecordingThreads (l : list SaveThread) (st : Plugin) : Plugin :=
  mkPlugin (params_ st) (m_opticalTrackerBase st) (opticalTrackerP st)
    (allHandlesSet st) (isConnectionEstablished_ st) (m_receivedFrame st)
    (m_nextState st) (m_logFileBufferBuilderP st)
    (m_KUKAiiwaFusionTrackMessageBufferP st) (m_shouldStop st)
    (m_isRecording st) (exceptionPtr st) (m_driverThread st)
    l (m_geometryIDToVrepMotionConfigMap st).

(** The constructor.  It initialises [isConnectionEstablished_] and
    [m_shouldStop]; [m_isRecording] has no initialiser, so its first value
    [recording0] is whatever the memory holds. *)
Definition AtracsysFusionTrackVrepPlugin (params : Params) (recording0 : bool)
    : Plugin :=
  {| params_ := params;
     m_opticalTrackerBase := -1;
     opticalTrackerP := None;
     allHandlesSet := false;
     isConnectionEstablished_ := false;
     m_receivedFrame := None;
     m_nextState := None;
     m_logFileBufferBuilderP := None;
     m_KUKAiiwaFusionTrackMessageBufferP := None;
     m_shouldStop := false;
     m_isRecording := recording0;
     exceptionPtr := None;
     m_driverThread := None;
     m_saveRecordingThreads := [];
     m_geometryIDToVrepMotionConfigMap := ∅ |}.

(** *** Configuration of the tracked objects *)

(** [MotionConfigParamsAddConfig]: [IDToHandleConfig[id] = make_tuple(...)].
    The right-hand side of the assignment is taken before the subscript, as
    C++17 sequences it, so a name that does not resolve or an id that does
    not parse throws before the map is touched.  A call that returns does
    the same in any order. *)
Definition MotionConfigParamsAddConfig (motionConfig : MotionConfigParams)
    (IDToHandleConfig : gmap Z VrepMotionConfigTuple)
    : outcome (gmap Z VrepMotionConfigTuple) :=
  objectToMove ← getHandle (ObjectToMoveName motionConfig);
  frameInWhichToMoveObject ← getHandle (FrameInWhichToMoveObjectName motionConfig);
  objectBeingMeasured ← getHandle (ObjectBeingMeasuredName motionConfig);
  id ← lexical_cast_int (GeometryIDName motionConfig);
  mret (<[id := make_tuple objectToMove frameInWhichToMoveObject objectBeingMeasured]>
          IDToHandleConfig).

(** The loop of [MotionConfigParamsToVrepHandleConfigMap]. *)
Fixpoint AddConfigs (configurations : list MotionConfigParams)
    (IDToHandleConfig : gmap Z VrepMotionConfigTuple)
    : outcome (gmap Z VrepMotionConfigTuple) :=
  match configurations with
  | [] => Returned IDToHandleConfig
  | motionConfig :: rest =>
      IDToHandleConfig' ← MotionConfigParamsAddConfig motionConfig IDToHandleConfig;
      AddConfigs rest IDToHandleConfig'
  end.

Definition MotionConfigParamsToVrepHandleConfigMap
    (configurations : list MotionConfigParams)
    : outcome (gmap Z VrepMotionConfigTuple) :=
  AddConfigs configurations ∅.

Definition initHandles (st : Plugin) : outcome unit * Plugin :=
  match getHandle (OpticalTrackerBase (params_ st)) with
  | Returned base =>
      let st1 := set_m_opticalTrackerBase base st in
      match MotionConfigParamsToVrepHandleConfigMap
              (MotionConfigParamsVector (params_ st)) with
      | Returned m => (Returned tt, set_allHandlesSet true (set_map m st1))
      | Threw e => (Threw e, st1)
      | Crashed => (Crashed, st1)
      end
  | Threw e => (Threw e, st)
  | Crashed => (Crashed, st)
  end.

Definition add_object (mcp : MotionConfigParams) (st : Plugin)
    : outcome unit * Plugin :=
  match MotionConfigParamsAddConfig mcp (m_geometryIDToVrepMotionConfigMap st) with
  | Returned m => (Returned tt, set_map m st)
  | Threw e => (Threw e, st)
  | Crashed => (Crashed, st)
  end.

Definition clear_objects (st : Plugin) : Plugin :=
  set_map ∅ st.

(** [remove_geometry(int)]. *)
Definition remove_geometry (GeometryID : Z) (st : Plugin) : Plugin :=
  set_map (delete GeometryID (m_geometryIDToVrepMotionConfigMap st)) st.

(** [remove_geometry(std::string)]. *)
Definition remove_geometry_string (GeometryID : string) (st : Plugin)
    : outcome unit * Plugin :=
  match lexical_cast_int GeometryID with
  | Returned id => (Returned tt, remove_geometry id st)
  | Threw e => (Threw e, st)
  | Crashed => (Crashed, st)
  end.

(** *** Status *)

Definition is_active (st : Plugin) : bool :=
  allHandlesSet st && bool_decide (exceptionPtr st = None)
  && bool_decide (is_Some (opticalTrackerP st)) && isConnectionEstablished_ st.

Definition is_recording (st : Plugin) : bool :=
  is_active st && m_isRecording st.

(** *** run_one *)

(** The if / else-if of the loop body: the transform that is handed to
    [setObjectTransform], or the exception thrown instead. *)
Definition transformToApply (base : Z) (config : VrepMotionConfigTuple)
    (cameraToMarkerTransform : Affine3f) : outcome Affine3f :=
  if (base =? ObjectToMove config)
     && (FrameInWhichToMoveObject config =? ObjectBeingMeasured config)
  then Returned (inverse cameraToMarkerTransform)
  else if negb (FrameInWhichToMoveObject config =? base)
  then Threw (runtime_error unsupported_what)
  else Returned cameraToMarkerTransform.

(** The loop over [m_receivedFrame->Markers]: how it ends, and the calls of
    [setObjectTransform] made on the way, in order. *)
Fixpoint run_one_markers (base : Z) (configMap : gmap Z VrepMotionConfigTuple)
    (markers : list (ftkMarker Pose)) : outcome unit * list (Call Affine3f) :=
  match markers with
  | [] => (Returned tt, [])
  | marker :: rest =>
      let cameraToMarkerTransform := ftkMarkerToAffine3f marker in
      match configMap !! geometryId marker with
      | None => run_one_markers base configMap rest
      | Some config =>
          match transformToApply base config cameraToMarkerTransform with
          | Returned transform =>
              let '(end_, calls) := run_one_markers base configMap rest in
              (end_,
               setObjectTransform (ObjectToMove config)
                 (FrameInWhichToMoveObject config) transform :: calls)
          | Threw e => (Threw e, [])
          | Crashed => (Crashed, [])
          end
      end
  end.

(** [run_one].  It changes no data member; its effect is the list of
    simulator calls.  BOOST_VERIFY is taken as the assertion it is in a
    debug build. *)
Definition run_one (st : Plugin) : outcome unit * list (Call Affine3f) :=
  match exceptionPtr st with
  | Some e => (Threw e, [])
  | None =>
      if negb (isConnectionEstablished_ st) || negb (allHandlesSet st)
      then (Returned tt, [])
      else
        match m_receivedFrame st, m_nextState st, opticalTrackerP st with
        | Some receivedFrame, Some _, Some _ =>
            run_one_markers (m_opticalTrackerBase st)
              (m_geometryIDToVrepMotionConfigMap st) (Markers receivedFrame)
        | _, _, _ => (Crashed, [])
        end
  end.

(** *** Recording *)

Definition start_recording (st : Plugin) : bool * Plugin :=
  let st' := set_m_isRecording true st in (m_isRecording st', st').

Definition stop_recording (st : Plugin) : bool * Plugin :=
  let st' := set_m_isRecording false st in (negb (m_isRecording st'), st').

(** The body of [save_recording].  [now] is what
    [current_date_and_time_string()] answers at the call.  The body ends
    without a return statement; what that does to the call is in [call]. *)
Definition save_recording (filename : string) (now : string) (st : Plugin)
    : Plugin :=
  let filename :=
    if bool_decide (filename = "") then now +:+ "FusionTrack.flik" else filename in
  let saveLambdaFunction :=
    {| save_fbbP := m_logFileBufferBuilderP st;
       save_KUKAiiwaFusionTrackMessageBufferP :=
         m_KUKAiiwaFusionTrackMessageBufferP st;
       filename := filename;
       saveLogThread := spawned |} in
  set_recording_buffer (Some new_FlatBufferBuilder) (Some [])
    (set_m_saveRecordingThreads
       (m_saveRecordingThreads st ++ [saveLambdaFunction]) st).

(** The body of the lambda, run by the save thread: the file it writes
    with [flatbuffers::SaveFile], or the loss of the process when one of
    the two captured pointers is null. *)
Definition saveLambdaFunction (t : SaveThread) : outcome (string * LogFile) :=
  match save_fbbP t, save_KUKAiiwaFusionTrackMessageBufferP t with
  | Some fbb, Some messages => Returned (filename t, Finish fbb messages)
  | _, _ => Crashed
  end.

Definition clear_recording (st : Plugin) : Plugin :=
  set_recording_buffer None None st.

(** *** The driver thread *)

(** The try block of [update]: connect, take the two frames, raise the
    connection flag.  A throw leaves the members assigned so far. *)
Definition update_try (st : Plugin) : outcome unit * Plugin :=
  match new_FusionTrack (FusionTrackParams_ (params_ st)) with
  | Returned tracker =>
      let st1 := set_opticalTrackerP (Some tracker) st in
      match makeFramePtr tracker with
      | Returned frame1 =>
          let st2 := set_frames (Some frame1) (m_nextState st1) st1 in
          match makeFramePtr tracker with
          | Returned frame2 =>
              (Returned tt,
               set_isConnectionEstablished_ true
                 (set_frames (m_receivedFrame st2) (Some frame2) st2))
          | Threw e => (Threw e, st2)
          | Crashed => (Crashed, st2)
          end
      | Threw e => (Threw e, st1)
      | Crashed => (Crashed, st1)
      end
  | Threw e => (Threw e, st)
  | Crashed => (Crashed, st)
  end.

(** The try block with its [catch (...)]. *)
Definition update_connect (st : Plugin) : outcome unit * Plugin :=
  match update_try st with
  | (Threw e, st') =>
      (Returned tt, set_m_shouldStop true (set_exceptionPtr (Some e) st'))
  | other => other
  end.

(** The recording branch of the loop body: make the builder when there is
    none, write the frame into it, push the offset. *)
Definition record_frame (tracker : FusionTrack) (frame : Frame Pose)
    (st : Plugin) : outcome unit * Plugin :=
  let st1 :=
    match m_logFileBufferBuilderP st with
    | Some _ => st
    | None => set_recording_buffer (Some new_FlatBufferBuilder) (Some []) st
    end in
  match m_logFileBufferBuilderP st1, m_KUKAiiwaFusionTrackMessageBufferP st1 with
  | Some fbb, Some messages =>
      let '(fbb', oneKUKAiiwaFusionTrackMessage) := toFlatBuffer fbb tracker frame in
      (Returned tt,
       set_recording_buffer (Some fbb')
         (Some (messages ++ [oneKUKAiiwaFusionTrackMessage])) st1)
  | _, _ => (Crashed, st1)
  end.

(** One turn of the while loop, entered with [m_shouldStop] false.
    [received] is how the blocking [receive] call ends: the frame it
    writes into [*m_nextState], or an exception.  Nothing in [update]
    catches that exception, so it leaves the thread function and
    std::terminate ends the process. *)
Definition update_iteration (received : outcome (Frame Pose)) (st : Plugin)
    : outcome unit * Plugin :=
  match opticalTrackerP st, m_nextState st with
  | Some tracker, Some _ =>
      match received with
      | Returned frame =>
          let st1 := set_frames (m_receivedFrame st) (Some frame) st in
          let '(end_, st2) :=
            if m_isRecording st1 then record_frame tracker frame st1
            else (Returned tt, st1) in
          match end_ with
          | Returned _ =>
              (Returned tt, set_frames (m_nextState st2) (m_receivedFrame st2) st2)
          | _ => (end_, st2)
          end
      | _ => (Crashed, st)
      end
  | _, _ => (Crashed, st)
  end.

(** How far the driver thread got. *)
Inductive DriverThread : Type :=
  | thread_returned
  | thread_in_receive
  | process_lost.

(** The while loop, run on the frames the device delivers. *)
Fixpoint update_loop (received : list (outcome (Frame Pose))) (st : Plugin)
    : DriverThread * Plugin :=
  if m_shouldStop st then (thread_returned, st)
  else
    match received with
    | [] => (thread_in_receive, st)
    | r :: rest =>
        match update_iteration r st with
        | (Returned _, st') => update_loop rest st'
        | (_, st') => (process_lost, st')
        end
    end.

Definition update (received : list (outcome (Frame Pose))) (st : Plugin)
    : DriverThread * Plugin :=
  match update_connect st with
  | (Returned _, st') => update_loop received st'
  | (_, st') => (process_lost, st')
  end.

(** *** Start and shutdown *)

(** [construct]: [initHandles], then the driver thread is started.
    [reset] destroys a handle that was there before; destroying a joinable
    [std::thread] calls std::terminate. *)
Definition construct (st : Plugin) : outcome unit * Plugin :=
  match initHandles st with
  | (Returned _, st1) =>
      match m_driverThread st1 with
      | Some old =>
          if joinable old then (Crashed, st1)
          else (Returned tt, set_m_driverThread (Some spawned) st1)
      | None => (Returned tt, set_m_driverThread (Some spawned) st1)
      end
  | other => other
  end.

(** The second loop of [destruct]: for every save thread it calls
    [m_driverThread->join()]. *)
Fixpoint destruct_saveThreads (saveRecordingThreads : list SaveThread)
    (driverThread : option thread) : outcome unit * option thread :=
  match saveRecordingThreads with
  | [] => (Returned tt, driverThread)
  | saveThreadP :: rest =>
      match driverThread with
      | Some t =>
          match join t with
          | Returned t' => destruct_saveThreads rest (Some t')
          | Threw e => (Threw e, driverThread)
          | Crashed => (Crashed, driverThread)
          end
      | None => (Crashed, driverThread)
      end
  end.

Definition destruct (st : Plugin) : outcome unit * Plugin :=
  let st1 := set_m_shouldStop true st in
  let '(end_, st2) :=
    match m_driverThread st1 with
    | Some t =>
        match join t with
        | Returned t' => (Returned tt, set_m_driverThread (Some t') st1)
        | Threw e => (Threw e, st1)
        | Crashed => (Crashed, st1)
        end
    | None => (Returned tt, st1)
    end in
  match end_ with
  | Returned _ =>
      let '(end', driverThread) :=
        destruct_saveThreads (m_saveRecordingThreads st2) (m_driverThread st2) in
      (end', set_m_driverThread driverThread st2)
  | _ => (end_, st2)
  end.

(** *** The calls a client makes on a running plugin *)

Inductive request : Type :=
  | call_add_object (mcp : MotionConfigParams)
  | call_clear_objects
  | call_remove_geometry (GeometryID : Z)
  | call_remove_geometry_string (GeometryID : string)
  | call_is_active
  | call_is_recording
  | call_run_one
  | call_start_recording
  | call_stop_recording
  | call_save_recording (filename now : string)
  | call_clear_recording.

(** What a call hands back. *)
Inductive reply : Type :=
  | void
  | value (b : bool).

(** A call of a member function.  [save_recording] is declared to return
    bool and its body runs off the end without a return statement, which
    is undefined behaviour: once the body is done the call does not come
    back with a value, and it is counted as the loss of the process. *)

Definition call (r : request) (st : Plugin)
    : outcome reply * Plugin * list (Call Affine3f) :=
  match r with
  | call_add_object mcp =>
      let '(end_, st') := add_object mcp st in (_ ← end_; mret void, st', [])
  | call_clear_objects => (Returned void, clear_objects st, [])
  | call_remove_geometry id => (Returned void, remove_geometry id st, [])
  | call_remove_geometry_string id =>
      let '(end_, st') := remove_geometry_string id st in
      (_ ← end_; mret void, st', [])
  | call_is_active => (Returned (value (is_active st)), st, [])
  | call_is_recording => (Returned (value (is_recording st)), st, [])
  | call_run_one =>
      let '(end_, calls) := run_one st in (_ ← end_; mret void, st, calls)
  | call_start_recording =>
      let '(b, st') := start_recording st in (Returned (value b), st', [])
  | call_stop_recording =>
      let '(b, st') := stop_recording st in (Returned (value b), st', [])
  | call_save_recording filename now =>
      (Crashed, save_recording filename now st, [])
  | call_clear_recording => (Returned void, clear_recording st, [])
  end.

(** A sequence of client calls; it ends at the first call that does not
    return. *)
Fixpoint calls (rs : list request) (st : Plugin) : outcome Plugin :=
  match rs with
  | [] => Returned st
  | r :: rest =>
      match call r st with
      | (Returned _, st', _) => calls rest st'
      | (Threw e, _, _) => Threw e
      | (Crashed, _, _) => Crashed
      end
  end.

(** What happens to a plugin after [construct]: a client call, or a turn
    of the driver thread's loop.  Both hold [m_frameAccess], so they are
    steps of one sequence.  A client that catches an exception goes on
    with the plugin as the call left it. *)
Inductive event : Type :=
  | client (r : request)
  | driver (received : outcome (Frame Pose)).

Definition step (ev : event) (st : Plugin) : Plugin :=
  match ev with
  | client r => snd (fst (call r st))
  | driver received =>
      if m_shouldStop st then st else snd (update_iteration received st)
  end.

Definition steps (evs : list event) (st : Plugin) : Plugin :=
  foldl (fun st ev => step ev st) st evs.

End Plugin.

(** ** Vocabulary of the properties *)

Section Vocabulary.

Context `{Collaborators}.

(** [run_one] is past its two early exits and reads [frame]. *)
Definition ready (st : Plugin) (frame : Frame Pose) : Prop :=
  exceptionPtr st = None /\ isConnectionEstablished_ st = true
  /\ allHandlesSet st = true /\ m_receivedFrame st = Some frame
  /\ is_Some (m_nextState st) /\ is_Some (opticalTrackerP st).

(** The object to move is the tracker base and the frame to move within
    is the object being measured. *)
Definition inverts (base : Z) (config : VrepMotionConfigTuple) : Prop :=
  base = ObjectToMove config
  /\ FrameInWhichToMoveObject config = ObjectBeingMeasured config.

Global Instance inverts_dec base config : Decision (inverts base config).
Proof. unfold inverts. apply _. Defined.

(** Neither inverted nor moved within the tracker base. *)
Definition unsupported (base : Z) (config : VrepMotionConfigTuple) : Prop :=
  ~ inverts base config /\ FrameInWhichToMoveObject config <> base.

Global Instance unsupported_dec base config : Decision (unsupported base config).
Proof. unfold unsupported. apply _. Defined.

(** One simulator call per configured marker, in marker order, with the
    measured transform inverted where the configuration asks for it. *)
Definition forwarded (base : Z) (configMap : gmap Z VrepMotionConfigTuple)
    (markers : list (ftkMarker Pose)) : list (Call Affine3f) :=
  omap (fun marker =>
          config ← configMap !! geometryId marker;
          Some (setObjectTransform (ObjectToMove config)
                  (FrameInWhichToMoveObject config)
                  (if decide (inverts base config)
                   then inverse (ftkMarkerToAffine3f marker)
                   else ftkMarkerToAffine3f marker)))
       markers.

(** The loop of [run_one] gets as far as the marker that follows
    [markers]: none of them is configured in an unsupported way. *)
Definition all_supported (base : Z) (configMap : gmap Z VrepMotionConfigTuple)
    (markers : list (ftkMarker Pose)) : Prop :=
  Forall (fun marker =>
            forall config, configMap !! geometryId marker = Some config ->
                           ~ unsupported base config)
         markers.

(** What a call that returned did to the configuration map.  A call that
    threw did nothing to it. *)
Inductive ConfigEdit : Type :=
  | added (id : Z) (config : VrepMotionConfigTuple)
  | removed (id : Z)
  | cleared.

Definition edit_of (r : request) : option ConfigEdit :=
  match r with
  | call_add_object mcp =>
      match getHandle (ObjectToMoveName mcp),
            getHandle (FrameInWhichToMoveObjectName mcp),
            getHandle (ObjectBeingMeasuredName mcp),
            lexical_cast_int (GeometryIDName mcp) with
      | Returned move, Returned within, Returned measured, Returned id =>
          Some (added id (make_tuple move within measured))
      | _, _, _, _ => None
      end
  | call_clear_objects => Some cleared
  | call_remove_geometry id => Some (removed id)
  | call_remove_geometry_string GeometryID =>
      match lexical_cast_int GeometryID with
      | Returned id => Some (removed id)
      | _ => None
      end
  | _ => None
  end.

(** The configuration of geometry id [g] after a history of edits, given
    most recent first: that of its latest add, unless a remove of [g] or a
    clear came after it; [initially] before the first edit. *)
Fixpoint most_recent (g : Z) (edits : list ConfigEdit)
    (initially : option VrepMotionConfigTuple) : option VrepMotionConfigTuple :=
  match edits with
  | [] => initially
  | added id config :: earlier =>
      if decide (id = g) then Some config else most_recent g earlier initially
  | removed id :: earlier =>
      if decide (id = g) then None else most_recent g earlier initially
  | cleared :: _ => None
  end.

(** The builder and the vector of its messages are there together or not
    at all. *)
Definition buffers_paired (st : Plugin) : Prop :=
  m_logFileBufferBuilderP st = None
  <-> m_KUKAiiwaFusionTrackMessageBufferP st = None.

(** A builder, and the offsets of its messages, after [frames] were
    recorded one by one on top of [start]. *)
Definition record_from (tracker : FusionTrack)
    (start : FlatBufferBuilder * list Offset) (frames : list (Frame Pose))
    : FlatBufferBuilder * list Offset :=
  foldl (fun buffer frame =>
           let '(fbb', o) := toFlatBuffer (fst buffer) tracker frame in
           (fbb', snd buffer ++ [o]))
        start frames.

(** ... on top of a fresh, empty buffer. *)
Definition recorded (tracker : FusionTrack) (frames : list (Frame Pose))
    : FlatBufferBuilder * list Offset :=
  record_from tracker (new_FlatBufferBuilder, []) frames.

End Vocabulary.

(** ** Further vocabulary *)

Section MoreVocabulary.

Context `{Collaborators}.

(** The marker's geometry id has an entry in the map. *)
Definition configured (configMap : gmap Z VrepMotionConfigTuple)
    (marker : ftkMarker Pose) : bool :=
  bool_decide (is_Some (configMap !! geometryId marker)).

(** The marker is not one of geometry [g]. *)
Definition other_geometry (g : Z) (marker : ftkMarker Pose) : bool :=
  negb (geometryId marker =? g).

(** Once the connection flag is up, the tracker and both frames are there:
    what BOOST_VERIFY tests in [run_one]. *)
Definition frames_allocated (st : Plugin) : Prop :=
  isConnectionEstablished_ st = true ->
  is_Some (opticalTrackerP st) /\ is_Some (m_receivedFrame st)
  /\ is_Some (m_nextState st).

(** The driver loop can take its next turn: it was not told to stop, the
    tracker and both frames are there, and so is the message vector when
    the builder is. *)
Definition running (st : Plugin) : Prop :=
  m_shouldStop st = false /\ is_Some (opticalTrackerP st)
  /\ is_Some (m_receivedFrame st) /\ is_Some (m_nextState st)
  /\ buffers_paired st.

(** What a turn of the driver loop leaves alone: everything but the two
    frames and the recording buffer. *)
Definition driver_keeps (st st' : Plugin) : Prop :=
  params_ st' = params_ st
  /\ m_opticalTrackerBase st' = m_opticalTrackerBase st
  /\ opticalTrackerP st' = opticalTrackerP st
  /\ allHandlesSet st' = allHandlesSet st
  /\ isConnectionEstablished_ st' = isConnectionEstablished_ st
  /\ m_shouldStop st' = m_shouldStop st
  /\ m_isRecording st' = m_isRecording st
  /\ exceptionPtr st' = exceptionPtr st
  /\ m_driverThread st' = m_driverThread st
  /\ m_saveRecordingThreads st' = m_saveRecordingThreads st
  /\ m_geometryIDToVrepMotionConfigMap st' = m_geometryIDToVrepMotionConfigMap st.

(** The recording held so far; the empty one when there is no buffer. *)
Definition recording_so_far (st : Plugin) : FlatBufferBuilder * list Offset :=
  match m_logFileBufferBuilderP st, m_KUKAiiwaFusionTrackMessageBufferP st with
  | Some fbb, Some messages => (fbb, messages)
  | _, _ => (new_FlatBufferBuilder, [])
  end.

(** The call is one of the four that edit the configuration map. *)
Definition edits_configuration (r : request) : bool :=
  match r with
  | call_add_object _ | call_clear_objects
  | call_remove_geometry _ | call_remove_geometry_string _ => true
  | _ => false
  end.

(** The call is one of the three that read [exceptionPtr]. *)
Definition reads_exceptionPtr (r : request) : bool :=
  match r with
  | call_run_one | call_is_active | call_is_recording => true
  | _ => false
  end.

(** What a call does on a plugin that has [e] stored, when it does what it
    does on the plugin [clean] that has nothing stored: the same end, the
    same simulator calls, and the same plugin but for the stored [e]. *)
Definition as_without_fault (e : exception) (clean : Plugin) (r : request)
    : outcome reply * Plugin * list (Call Affine3f) :=
  let '(end_, st', made) := call r clean in
  (end_, set_exceptionPtr (Some e) st', made).

(** The number of [save_recording] calls among the events. *)
Definition save_calls (evs : list event) : nat :=
  length (List.filter
            (fun ev => match ev with
                       | client (call_save_recording _ _) => true
                       | _ => false
                       end)
            evs).

End MoreVocabulary.

(** ** A small simulator and device to run the plugin on *)

Module Demo.

(** The scene knows the three objects the stock parameters name. *)
Definition scene_handle (name : string) : outcome Z :=
  if bool_decide (name = "OpticalTrackerBase#0") then Returned 10
  else if bool_decide (name = "Fiducial#55") then Returned 55
  else if bool_decide (name = "Fiducial#22") then Returned 22
  else Threw (runtime_error "getHandle: Handle is not valid.").

Fixpoint decimal (s : string) (acc : Z) : option Z :=
  match s with
  | EmptyString => Some acc
  | String c rest =>
      let d := Z.of_nat (Ascii.nat_of_ascii c) - 48 in
      if (0 <=? d) && (d <=? 9) then decimal rest (10 * acc + d) else None
  end.

(** Unsigned decimal numbers that fit an int. *)
Definition parse_int (s : string) : outcome Z :=
  match s with
  | EmptyString => Threw bad_lexical_cast
  | _ =>
      match decimal s 0 with
      | Some z => if z <? 2 ^ 31 then Returned z else Threw bad_lexical_cast
      | None => Threw bad_lexical_cast
      end
  end.

(** Transforms are integers and inversion is negation; a device is there
    for the parameters [true] and absent for [false]; a builder is the
    list of frames written into it and an offset is a position in it. *)
Definition world : Collaborators :=
  {| Affine3f := Z;
     inverse := Z.opp;
     Pose := Z;
     ftkMarkerToAffine3f := pose;
     getHandle := scene_handle;
     lexical_cast_int := parse_int;
     FusionTrackParams := bool;
     FusionTrack_defaultParams := true;
     FusionTrack_emptyDefaultParams := false;
     FusionTrack := unit;
     new_FusionTrack := fun present =>
       if present then Returned tt else Threw (device_error 1);
     makeFramePtr := fun _ => Returned (mkFrame []);
     FlatBufferBuilder := list (Frame Z);
     new_FlatBufferBuilder := [];
     Offset := nat;
     toFlatBuffer := fun fbb _ frame => (fbb ++ [frame], length fbb);
     LogFile := list (Frame Z);
     Finish := fun fbb messages => omap (fun o => fbb !! o) messages |}.

(** A plugin whose device is absent, after [construct] and the driver
    thread's attempt to connect. *)
Definition faulted : Plugin (H := world) :=
  let st0 := AtracsysFusionTrackVrepPlugin (H := world) emptyDefaultParams false in
  snd (update_connect (snd (construct st0))).

(** The stock plugin, started and connected. *)
Definition connected : Plugin (H := world) :=
  let st0 := AtracsysFusionTrackVrepPlugin (H := world) defaultParams false in
  snd (update_connect (snd (construct st0))).

(** ... after it recorded one frame and was asked to save it. *)
Definition saving : Plugin (H := world) :=
  steps (H := world)
    [@client world call_start_recording;
     @driver world (Returned (mkFrame [mkMarker 55 7]));
     @client world (call_save_recording "x.flik" "2018-01-01-")]
    connected.

(** The stock plugin made and started, its driver thread not yet
    connected. *)
Definition started : Plugin (H := world) :=
  snd (construct (AtracsysFusionTrackVrepPlugin (H := world) defaultParams false)).

(** Fiducial#22 is to be moved within Fiducial#55: not supported. *)
Definition third_frame : MotionConfigParams :=
  make_tuple4 "Fiducial#22" "Fiducial#55" "Fiducial#22" "22".

Definition three_markers : Frame Z :=
  mkFrame [mkMarker 55 7; mkMarker 22 3; mkMarker 55 9].

(** The connected plugin with that configuration added, reading a frame
    whose second marker has it. *)
Definition mixed : Plugin (H := world) :=
  steps (H := world)
    [@client world (call_add_object third_frame);
     @driver world (Returned three_markers)]
    connected.

(** The connected plugin, recording, with one frame in its buffer. *)
Definition recording : Plugin (H := world) :=
  steps (H := world)
    [@client world call_start_recording;
     @driver world (Returned (mkFrame [mkMarker 55 7]))]
    connected.

(** Configuration calls: geometry 22 is added and removed, geometry 55 is
    added a second time, geometry 7 was never there. *)
Definition edits : list request :=
  [call_add_object (make_tuple4 "Fiducial#22" "OpticalTrackerBase#0" "Fiducial#22" "22");
   call_remove_geometry_string "22";
   call_add_object (make_tuple4 "Fiducial#55" "OpticalTrackerBase#0" "Fiducial#55" "55");
   call_remove_geometry 7].

(** The connected plugin reading a frame with one marker of geometry 55. *)
Definition tracking : Plugin (H := world) :=
  steps (H := world) [@driver world (Returned (mkFrame [mkMarker 55 7]))] connected.

(** ... reading a frame whose markers have no configuration. *)
Definition strangers : Plugin (H := world) :=
  steps (H := world)
    [@driver world (Returned (mkFrame [mkMarker 7 1; mkMarker 8 2]))] connected.

(** The connected plugin with recording switched on and nothing recorded. *)
Definition armed : Plugin (H := world) :=
  steps (H := world) [@client world call_start_recording] connected.

(** A plugin whose tracker base is not in the scene. *)
Definition nameless : Plugin (H := world) :=
  AtracsysFusionTrackVrepPlugin (H := world)
    (@mkParams world true "NoSuchObject#0" []) false.

(** Configuration calls of which two throw: Nobody#1 is not in the scene
    and "fifty" is not a number. *)
Definition rough_edits : list request :=
  [call_add_object (make_tuple4 "Fiducial#55" "OpticalTrackerBase#0" "Fiducial#55" "55");
   call_add_object (make_tuple4 "Nobody#1" "OpticalTrackerBase#0" "Nobody#1" "55");
   call_remove_geometry_string "fifty";
   call_add_object (make_tuple4 "Fiducial#22" "OpticalTrackerBase#0" "Fiducial#22" "22");
   call_remove_geometry_string "22"].

(** The connected plugin with the unsupported configuration added, reading
    a frame in which the marker of geometry 55 comes after the one of
    geometry 22. *)
Definition blocked : Plugin (H := world) :=
  steps (H := world)
    [@client world (call_add_object third_frame);
     @driver world (Returned (mkFrame [mkMarker 22 3; mkMarker 55 7]))]
    connected.

(** A parameter vector that names geometry 55 twice. *)
Definition twice_55 : list MotionConfigParams :=
  [make_tuple4 "Fiducial#55" "OpticalTrackerBase#0" "Fiducial#55" "55";
   make_tuple4 "Fiducial#22" "OpticalTrackerBase#0" "Fiducial#22" "22";
   make_tuple4 "OpticalTrackerBase#0" "Fiducial#55" "Fiducial#55" "55"].

End Demo.

Example demo_faulted_exception :
  exceptionPtr Demo.faulted = Some (device_error 1).
Proof. reflexivity. Qed.

Example demo_connected :
  is_active Demo.connected = true.
Proof. vm_compute. reflexivity. Qed.

Example demo_connected_map :
  m_geometryIDToVrepMotionConfigMap Demo.connected !! 55 = Some (make_tuple 10 55 55).
Proof. vm_compute. reflexivity. Qed.

Example demo_saving :
  length (m_saveRecordingThreads Demo.saving) = 1%nat.
Proof. vm_compute. reflexivity. Qed.

(** ** run_one *)

Section RunOne.

Context `{Collaborators}.

Lemma transformToApply_inverts base config T :
  inverts base config ->
  transformToApply base config T = Returned (inverse T).
Proof.
  intros [Hmove Hframe]. unfold transformToApply.
  rewrite <- Hmove, Hframe, !Z.eqb_refl. reflexivity.
Qed.

Lemma inverts_test base config :
  (base =? ObjectToMove config)
  && (FrameInWhichToMoveObject config =? ObjectBeingMeasured config) = false <->
  ~ inverts base config.
Proof.
  unfold inverts. rewrite andb_false_iff, !Z.eqb_neq. split.
  - intros [Hne | Hne] [H1 H2]; contradiction.
  - intros Hnot. destruct (decide (base = ObjectToMove config)); [right | left]; trivial.
    intros Heq. apply Hnot. split; trivial.
Qed.

Lemma transformToApply_unsupported base config T :
  unsupported base config ->
  transformToApply base config T = Threw (runtime_error unsupported_what).
Proof.
  intros [Hnot Hframe]. unfold transformToApply.
  apply inverts_test in Hnot. rewrite Hnot.
  apply Z.eqb_neq in Hframe. rewrite Hframe. reflexivity.
Qed.

Lemma transformToApply_measured base config T :
  ~ inverts base config -> FrameInWhichToMoveObject config = base ->
  transformToApply base config T = Returned T.
Proof.
  intros Hnot Hframe. unfold transformToApply.
  apply inverts_test in Hnot. rewrite Hnot.
  apply Z.eqb_eq in Hframe. rewrite Hframe. reflexivity.
Qed.

(** The transform of a supported configuration, as [forwarded] writes it. *)
Lemma transformToApply_supported base config T :
  ~ unsupported base config ->
  transformToApply base config T =
  Returned (if decide (inverts base config) then inverse T else T).
Proof.
  intros Hsup. destruct (decide (inverts base config)) as [Hinv | Hinv].
  - apply transformToApply_inverts, Hinv.
  - apply transformToApply_measured; trivial.
    destruct (decide (FrameInWhichToMoveObject config = base)); trivial.
    exfalso. apply Hsup. split; trivial.
Qed.

(** The loop never loses the process, and the only exception it throws is
    the one for an unsupported configuration. *)
Lemma run_one_markers_end base configMap markers :
  fst (run_one_markers base configMap markers) = Returned tt
  \/ fst (run_one_markers base configMap markers)
     = Threw (runtime_error unsupported_what).
Proof.
  induction markers as [| marker rest IH]; simpl; [left; reflexivity |].
  destruct (configMap !! geometryId marker) as [config |]; [| exact IH].
  unfold transformToApply.
  destruct (_ && _).
  - destruct (run_one_markers base configMap rest); exact IH.
  - destruct (negb _); [right; reflexivity |].
    destruct (run_one_markers base configMap rest); exact IH.
Qed.

(** The loop over a list in two parts. *)
Lemma run_one_markers_app base configMap before after :
  run_one_markers base configMap (before ++ after) =
  match run_one_markers base configMap before with
  | (Returned _, made) =>
      (fst (run_one_markers base configMap after),
       made ++ snd (run_one_markers base configMap after))
  | stopped => stopped
  end.
Proof.
  induction before as [| marker rest IH]; simpl.
  - destruct (run_one_markers base configMap after); reflexivity.
  - destruct (configMap !! geometryId marker) as [config |]; [| exact IH].
    destruct (transformToApply base config (ftkMarkerToAffine3f marker));
      try reflexivity.
    rewrite IH.
    destruct (run_one_markers base configMap rest) as [[[] | e |] made];
      reflexivity.
Qed.

Lemma forwarded_cons base configMap marker rest :
  forwarded base configMap (marker :: rest) =
  match configMap !! geometryId marker with
  | Some config =>
      setObjectTransform (ObjectToMove config) (FrameInWhichToMoveObject config)
        (if decide (inverts base config)
         then inverse (ftkMarkerToAffine3f marker)
         else ftkMarkerToAffine3f marker)
      :: forwarded base configMap rest
  | None => forwarded base configMap rest
  end.
Proof.
  unfold forwarded. simpl.
  destruct (configMap !! geometryId marker); reflexivity.
Qed.

(** Over markers without an unsupported configuration the loop returns,
    after the calls listed by [forwarded]. *)
Lemma run_one_markers_supported base configMap markers :
  all_supported base configMap markers ->
  run_one_markers base configMap markers
  = (Returned tt, forwarded base configMap markers).
Proof.
  unfold all_supported, forwarded.
  induction 1 as [| marker rest Hmarker _ IH]; simpl; [reflexivity |].
  destruct (configMap !! geometryId marker) as [config |] eqn:Hconfig; simpl.
  - rewrite transformToApply_supported by (apply Hmarker; reflexivity).
    rewrite IH. reflexivity.
  - exact IH.
Qed.

Lemma run_one_ready st frame :
  ready st frame ->
  run_one st = run_one_markers (m_opticalTrackerBase st)
                 (m_geometryIDToVrepMotionConfigMap st) (Markers frame).
Proof.
  intros (Hexc & Hconn & Hhandles & Hframe & [next Hnext] & [tracker Htracker]).
  unfold run_one. rewrite Hexc, Hconn, Hhandles, Hframe, Hnext, Htracker.
  reflexivity.
Qed.

(** A marker whose geometry id has no entry is passed over. *)
Lemma run_one_markers_unconfigured base configMap markers :
  Forall (fun marker => configMap !! geometryId marker = None) markers ->
  run_one_markers base configMap markers = (Returned tt, []).
Proof.
  induction 1 as [| marker rest Hmarker _ IH]; simpl; [reflexivity |].
  rewrite Hmarker. exact IH.
Qed.

Lemma construct_returns st b configMap :
  m_driverThread st = None ->
  getHandle (OpticalTrackerBase (params_ st)) = Returned b ->
  MotionConfigParamsToVrepHandleConfigMap
    (MotionConfigParamsVector (params_ st)) = Returned configMap ->
  construct st =
  (Returned tt,
   set_m_driverThread (Some spawned)
     (set_allHandlesSet true (set_map configMap (set_m_opticalTrackerBase b st)))).
Proof.
  intros Hthread Hbase Hmap. unfold construct, initHandles.
  rewrite Hbase, Hmap.
  cbn [m_driverThread set_allHandlesSet set_map set_m_opticalTrackerBase].
  rewrite Hthread. reflexivity.
Qed.

Lemma update_connect_returns st tracker frame1 :
  new_FusionTrack (FusionTrackParams_ (params_ st)) = Returned tracker ->
  makeFramePtr tracker = Returned frame1 ->
  update_connect st =
  (Returned tt,
   set_isConnectionEstablished_ true
     (set_frames (Some frame1) (Some frame1)
        (set_frames (Some frame1) (m_nextState st)
           (set_opticalTrackerP (Some tracker) st)))).
Proof.
  intros Hnew Hmake. unfold update_connect, update_try.
  rewrite Hnew, Hmake. reflexivity.
Qed.

(** A turn of the driver loop that finds no recording buffer: the frame
    it received becomes the current one; what [run_one] reads besides the
    frame stays. *)
Lemma driver_delivers st tracker next frame :
  m_shouldStop st = false ->
  opticalTrackerP st = Some tracker ->
  m_nextState st = Some next ->
  m_logFileBufferBuilderP st = None ->
  let st' := step (driver (Returned frame)) st in
  m_receivedFrame st' = Some frame
  /\ m_nextState st' = m_receivedFrame st
  /\ opticalTrackerP st' = Some tracker
  /\ exceptionPtr st' = exceptionPtr st
  /\ isConnectionEstablished_ st' = isConnectionEstablished_ st
  /\ allHandlesSet st' = allHandlesSet st
  /\ m_opticalTrackerBase st' = m_opticalTrackerBase st
  /\ m_geometryIDToVrepMotionConfigMap st' = m_geometryIDToVrepMotionConfigMap st.
Proof.
  intros Hstop Htracker Hnext Hbuffer st'. subst st'.
  unfold step, update_iteration. rewrite Hstop, Htracker, Hnext.
  cbn [m_isRecording set_frames].
  destruct (m_isRecording st).
  - unfold record_frame. cbn [m_logFileBufferBuilderP set_frames].
    rewrite Hbuffer.
    cbn [m_logFileBufferBuilderP m_KUKAiiwaFusionTrackMessageBufferP
         set_recording_buffer].
    destruct (toFlatBuffer new_FlatBufferBuilder tracker frame) as [fbb' o].
    cbn. rewrite Htracker. repeat split; reflexivity.
  - cbn. rewrite Htracker. repeat split; reflexivity.
Qed.

Lemma moveBone_configMap b f :
  getHandle "OpticalTrackerBase#0" = Returned b ->
  getHandle "Fiducial#55" = Returned f ->
  lexical_cast_int "55" = Returned 55 ->
  MotionConfigParamsToVrepHandleConfigMap (MotionConfigParamsVector moveBoneParams)
  = Returned {[ 55 := make_tuple b f f ]}.
Proof.
  intros Hbase Hfid Hlex.
  unfold MotionConfigParamsToVrepHandleConfigMap, moveBoneParams,
    MotionConfigParamsVector, AddConfigs, MotionConfigParamsAddConfig.
  cbn [ObjectToMoveName FrameInWhichToMoveObjectName ObjectBeingMeasuredName
       GeometryIDName].
  rewrite Hbase, Hfid, Hlex.
  cbn [mbind outcome_bind mret outcome_ret]. rewrite insert_empty. reflexivity.
Qed.

(** The stock "move bone" plugin after [construct], a successful
    connection and one received frame. *)
Lemma moveBone_running recording0 b f tracker frame1 frame :
  getHandle "OpticalTrackerBase#0" = Returned b ->
  getHandle "Fiducial#55" = Returned f ->
  lexical_cast_int "55" = Returned 55 ->
  new_FusionTrack FusionTrack_defaultParams = Returned tracker ->
  makeFramePtr tracker = Returned frame1 ->
  let st0 := AtracsysFusionTrackVrepPlugin moveBoneParams recording0 in
  let st := steps [driver (Returned frame)]
              (snd (update_connect (snd (construct st0)))) in
  ready st frame /\ m_opticalTrackerBase st = b
  /\ m_geometryIDToVrepMotionConfigMap st = {[ 55 := make_tuple b f f ]}.
Proof.
  intros Hbase Hfid Hlex Hnew Hmake st0 st. subst st.
  rewrite (construct_returns st0 b {[ 55 := make_tuple b f f ]});
    [| reflexivity | exact Hbase | apply moveBone_configMap; assumption].
  cbn [snd].
  rewrite (update_connect_returns _ tracker frame1); [| exact Hnew | exact Hmake].
  cbn [snd steps foldl].
  match goal with
  | |- context [step _ ?s] =>
      destruct (driver_delivers s tracker frame1 frame)
        as (Hcur & Hnext & Htracker & Hexc & Hconn & Hhandles & Hb & Hmap);
        try reflexivity
  end.
  unfold ready.
  rewrite Hcur, Hnext, Htracker, Hexc, Hconn, Hhandles, Hb, Hmap.
  repeat split; eauto.
Qed.

(** C1, amended. For a marker of the current frame that has a configuration
    and that the loop of run_one reaches (no marker in front of it has an
    unsupported configuration), the simulator is called with the inverse
    of the measured transform when the object to move is the tracker base
    and the frame to move within is the object being measured; otherwise
    the transform is not inverted: run_one throws there, or the call is
    made with the transform as measured.  In particular the stock plugin
    for geometry id 55 (move OpticalTrackerBase#0 within Fiducial#55,
    measuring Fiducial#55), fed a frame whose marker 55 has transform T,
    makes exactly one call: (OpticalTrackerBase#0, Fiducial#55, inverse T). *)
Theorem run_one_inverts_exactly_when :
  (forall st frame before marker after config,
      ready st frame ->
      Markers frame = before ++ marker :: after ->
      m_geometryIDToVrepMotionConfigMap st !! geometryId marker = Some config ->
      all_supported (m_opticalTrackerBase st)
        (m_geometryIDToVrepMotionConfigMap st) before ->
      let base := m_opticalTrackerBase st in
      let configMap := m_geometryIDToVrepMotionConfigMap st in
      let T := ftkMarkerToAffine3f marker in
      let made := forwarded base configMap before in
      let rest := run_one_markers base configMap after in
      (inverts base config ->
       run_one st =
       (fst rest,
        made ++ setObjectTransform (ObjectToMove config)
                  (FrameInWhichToMoveObject config) (inverse T) :: snd rest))
      /\ (~ inverts base config ->
          run_one st = (Threw (runtime_error unsupported_what), made)
          \/ run_one st =
             (fst rest,
              made ++ setObjectTransform (ObjectToMove config)
                        (FrameInWhichToMoveObject config) T :: snd rest)))
  /\ (forall recording0 b f tracker frame1 before marker after,
         getHandle "OpticalTrackerBase#0" = Returned b ->
         getHandle "Fiducial#55" = Returned f ->
         lexical_cast_int "55" = Returned 55 ->
         new_FusionTrack FusionTrack_defaultParams = Returned tracker ->
         makeFramePtr tracker = Returned frame1 ->
         geometryId marker = 55 ->
         Forall (fun other => geometryId other <> 55) (before ++ after) ->
         let st0 := AtracsysFusionTrackVrepPlugin moveBoneParams recording0 in
         let st := steps [driver (Returned (mkFrame (before ++ marker :: after)))]
                     (snd (update_connect (snd (construct st0)))) in
         run_one st =
         (Returned tt,
          [setObjectTransform b f (inverse (ftkMarkerToAffine3f marker))])).
Proof.
  split.
  - intros st frame before marker after config Hready Hmarkers Hconfig Hbefore
      base configMap T made rest.
    subst base configMap T made rest.
    rewrite (run_one_ready _ _ Hready), Hmarkers, run_one_markers_app.
    rewrite (run_one_markers_supported _ _ _ Hbefore).
    cbn [run_one_markers]. rewrite Hconfig.
    split.
    + intros Hinv. rewrite (transformToApply_inverts _ _ _ Hinv).
      destruct (run_one_markers _ _ after); reflexivity.
    + intros Hnot.
      destruct (decide (FrameInWhichToMoveObject config = m_opticalTrackerBase st))
        as [Heq | Hne].
      * right. rewrite (transformToApply_measured _ _ _ Hnot Heq).
        destruct (run_one_markers _ _ after); reflexivity.
      * left. rewrite transformToApply_unsupported by (split; trivial).
        cbn. rewrite app_nil_r. reflexivity.
  - intros recording0 b f tracker frame1 before marker after
      Hbase Hfid Hlex Hnew Hmake Hid Hothers st0 st.
    destruct (moveBone_running recording0 b f tracker frame1
                (mkFrame (before ++ marker :: after))
                Hbase Hfid Hlex Hnew Hmake) as (Hready & Hb & Hmap).
    fold st0 in Hready, Hb, Hmap. fold st in Hready, Hb, Hmap.
    rewrite (run_one_ready _ _ Hready), Hb, Hmap. cbn [Markers].
    apply Forall_app in Hothers as [Hbefore Hafter].
    rewrite run_one_markers_app, run_one_markers_unconfigured.
    + cbn [run_one_markers]. rewrite Hid, lookup_singleton_eq.
      rewrite transformToApply_inverts by (split; reflexivity).
      rewrite run_one_markers_unconfigured; [reflexivity |].
      eapply Forall_impl; [exact Hafter |].
      intros other Hne. cbn in Hne. apply lookup_singleton_ne. congruence.
    + eapply Forall_impl; [exact Hbefore |].
      intros other Hne. cbn in Hne. apply lookup_singleton_ne. congruence.
Qed.

(** The loop over markers that end in one with an unsupported
    configuration: it throws, after the calls for some of the markers in
    front of that one. *)
Lemma run_one_markers_stops base configMap before marker after config :
  configMap !! geometryId marker = Some config ->
  unsupported base config ->
  exists n, (n <= length before)%nat
    /\ run_one_markers base configMap (before ++ marker :: after)
       = (Threw (runtime_error unsupported_what),
          forwarded base configMap (take n before)).
Proof.
  intros Hconfig Hunsupported.
  induction before as [| m rest (n & Hn & IH)].
  - exists 0%nat. split; [reflexivity |]. cbn [app run_one_markers].
    rewrite Hconfig, transformToApply_unsupported by assumption. reflexivity.
  - cbn [app run_one_markers].
    destruct (configMap !! geometryId m) as [c |] eqn:Hc.
    + destruct (decide (unsupported base c)) as [Hbad | Hgood].
      * exists 0%nat. split; [cbn; lia |].
        rewrite transformToApply_unsupported by assumption. reflexivity.
      * exists (S n). split; [cbn; lia |].
        rewrite transformToApply_supported, IH by assumption.
        cbn [take]. rewrite forwarded_cons, Hc. reflexivity.
    + exists (S n). split; [cbn; lia |]. rewrite IH.
      cbn [take]. rewrite forwarded_cons, Hc. reflexivity.
Qed.

(** C2. When a marker of the current frame is configured so that the
    transform is not inverted and the frame to move within is not the
    tracker base, run_one throws the runtime error for unsupported
    configurations, and the simulator calls it made are calls for markers
    in front of that one: none is made for the marker itself. *)
Theorem run_one_unsupported_throws st frame before marker after config :
  ready st frame ->
  Markers frame = before ++ marker :: after ->
  m_geometryIDToVrepMotionConfigMap st !! geometryId marker = Some config ->
  unsupported (m_opticalTrackerBase st) config ->
  exists n, (n <= length before)%nat
    /\ run_one st
       = (Threw (runtime_error unsupported_what),
          forwarded (m_opticalTrackerBase st)
            (m_geometryIDToVrepMotionConfigMap st) (take n before)).
Proof.
  intros Hready Hmarkers Hconfig Hunsupported.
  rewrite (run_one_ready _ _ Hready), Hmarkers.
  apply (run_one_markers_stops _ _ _ _ _ config); assumption.
Qed.

(** C10. When the first marker with an unsupported configuration is marker
    k of the current frame, run_one throws after it has called the
    simulator once for every configured marker in front of k, in marker
    order; no call is made for marker k or a later one, and the calls made
    stay made. *)
Theorem run_one_not_atomic st frame before marker after config :
  ready st frame ->
  Markers frame = before ++ marker :: after ->
  all_supported (m_opticalTrackerBase st)
    (m_geometryIDToVrepMotionConfigMap st) before ->
  m_geometryIDToVrepMotionConfigMap st !! geometryId marker = Some config ->
  unsupported (m_opticalTrackerBase st) config ->
  run_one st
  = (Threw (runtime_error unsupported_what),
     forwarded (m_opticalTrackerBase st)
       (m_geometryIDToVrepMotionConfigMap st) before).
Proof.
  intros Hready Hmarkers Hbefore Hconfig Hunsupported.
  rewrite (run_one_ready _ _ Hready), Hmarkers, run_one_markers_app.
  rewrite (run_one_markers_supported _ _ _ Hbefore).
  cbn [run_one_markers fst snd]. rewrite Hconfig.
  rewrite transformToApply_unsupported by assumption.
  cbn [fst snd]. rewrite app_nil_r. reflexivity.
Qed.

(** C4, amended. A call of run_one made before the connection is
    established and with no stored exception returns at once: no simulator
    call, no change of the plugin.  With a stored exception (the attempt
    to connect failed) the call rethrows that exception instead. *)
Theorem run_one_before_connection st :
  isConnectionEstablished_ st = false ->
  match exceptionPtr st with
  | None => call call_run_one st = (Returned void, st, [])
  | Some e => call call_run_one st = (Threw e, st, [])
  end.
Proof.
  intros Hconn. unfold call, run_one. rewrite Hconn.
  destruct (exceptionPtr st); reflexivity.
Qed.

End RunOne.

(** ** The configuration map *)

Section Configuration.

Context `{Collaborators}.

Lemma most_recent_app g later earlier initially :
  most_recent g (later ++ earlier) initially
  = most_recent g later (most_recent g earlier initially).
Proof.
  induction later as [| [id config | id |] later IH]; cbn [app most_recent];
    try reflexivity; destruct (decide (id = g)); auto.
Qed.

Lemma set_map_same (st : Plugin) :
  set_map (m_geometryIDToVrepMotionConfigMap st) st = st.
Proof. destruct st; reflexivity. Qed.

(** One call that returns, seen as an edit of the map. *)
Lemma call_edits r st reply st' calls g :
  call r st = (Returned reply, st', calls) ->
  m_geometryIDToVrepMotionConfigMap st' !! g
  = most_recent g (match edit_of r with Some edit => [edit] | None => [] end)
      (m_geometryIDToVrepMotionConfigMap st !! g).
Proof.
  destruct r; cbn [call edit_of]; intros Hcall.
  - unfold add_object, MotionConfigParamsAddConfig in Hcall.
    destruct (getHandle (ObjectToMoveName mcp)) as [move | |];
      cbn [mbind outcome_bind] in Hcall; try discriminate.
    destruct (getHandle (FrameInWhichToMoveObjectName mcp)) as [within | |];
      cbn [mbind outcome_bind] in Hcall; try discriminate.
    destruct (getHandle (ObjectBeingMeasuredName mcp)) as [measured | |];
      cbn [mbind outcome_bind] in Hcall; try discriminate.
    destruct (lexical_cast_int (GeometryIDName mcp)) as [id | |];
      cbn [mbind outcome_bind mret outcome_ret] in Hcall; try discriminate.
    injection Hcall as _ <- _.
    cbn [m_geometryIDToVrepMotionConfigMap set_map most_recent].
    destruct (decide (id = g)) as [-> | Hne].
    + apply lookup_insert_eq.
    + apply lookup_insert_ne, Hne.
  - injection Hcall as _ <- _. apply lookup_empty.
  - injection Hcall as _ <- _.
    cbn [m_geometryIDToVrepMotionConfigMap remove_geometry set_map most_recent].
    destruct (decide (GeometryID = g)) as [-> | Hne].
    + apply lookup_delete_eq.
    + apply lookup_delete_ne, Hne.
  - unfold remove_geometry_string in Hcall.
    destruct (lexical_cast_int GeometryID) as [id | |];
      cbn [mbind outcome_bind] in Hcall; try discriminate.
    injection Hcall as _ <- _.
    cbn [m_geometryIDToVrepMotionConfigMap remove_geometry set_map most_recent].
    destruct (decide (id = g)) as [-> | Hne].
    + apply lookup_delete_eq.
    + apply lookup_delete_ne, Hne.
  - injection Hcall as _ <- _. reflexivity.
  - injection Hcall as _ <- _. reflexivity.
  - destruct (run_one st) as [end_ made]. injection Hcall as _ <- _. reflexivity.
  - injection Hcall as _ <- _. reflexivity.
  - injection Hcall as _ <- _. reflexivity.
  - injection Hcall as _ <- _. reflexivity.
  - injection Hcall as _ <- _. reflexivity.
Qed.

(** One client call, returned or not, seen as an edit of the map. *)
Lemma step_edits r st g :
  m_geometryIDToVrepMotionConfigMap (step (client r) st) !! g
  = most_recent g (match edit_of r with Some edit => [edit] | None => [] end)
      (m_geometryIDToVrepMotionConfigMap st !! g).
Proof.
  destruct r; cbn [step call edit_of].
  - unfold add_object, MotionConfigParamsAddConfig.
    destruct (getHandle (ObjectToMoveName mcp)) as [move | |],
             (getHandle (FrameInWhichToMoveObjectName mcp)) as [within | |],
             (getHandle (ObjectBeingMeasuredName mcp)) as [measured | |],
             (lexical_cast_int (GeometryIDName mcp)) as [id | |];
      cbn [mbind outcome_bind mret outcome_ret fst snd
           m_geometryIDToVrepMotionConfigMap set_map most_recent];
      try reflexivity.
    destruct (decide (id = g)) as [-> | Hne].
    + apply lookup_insert_eq.
    + apply lookup_insert_ne, Hne.
  - cbn [fst snd m_geometryIDToVrepMotionConfigMap clear_objects set_map
         most_recent].
    apply lookup_empty.
  - cbn [fst snd m_geometryIDToVrepMotionConfigMap remove_geometry set_map
         most_recent].
    destruct (decide (GeometryID = g)) as [-> | Hne].
    + apply lookup_delete_eq.
    + apply lookup_delete_ne, Hne.
  - unfold remove_geometry_string.
    destruct (lexical_cast_int GeometryID) as [id | |];
      cbn [mbind outcome_bind fst snd m_geometryIDToVrepMotionConfigMap
           remove_geometry set_map most_recent];
      try reflexivity.
    destruct (decide (id = g)) as [-> | Hne].
    + apply lookup_delete_eq.
    + apply lookup_delete_ne, Hne.
  - reflexivity.
  - reflexivity.
  - destruct (run_one st). reflexivity.
  - reflexivity.
  - reflexivity.
  - reflexivity.
  - reflexivity.
Qed.

(** A sequence of calls that all return leaves the plugin that the same
    calls leave as steps. *)
Lemma calls_as_steps rs st st' :
  calls rs st = Returned st' -> steps (map client rs) st = st'.
Proof.
  revert st. induction rs as [| r rest IH]; intros st Hcalls.
  - injection Hcalls as <-. reflexivity.
  - cbn [calls] in Hcalls. cbn [map steps foldl step].
    destruct (call r st) as [[[reply | e |] st1] made]; try discriminate Hcalls.
    exact (IH st1 Hcalls).
Qed.

(** C5. After any sequence of client calls (add_object, remove_geometry,
    clear_objects and the others, returning or throwing, the client going
    on after a throw), the configuration map holds, for every geometry id,
    the configuration of the most recent add of that id that returned,
    unless the id was removed or the map cleared after that add: then it
    holds nothing for the id.  A call that throws leaves the map as it
    was.  Removing an id that is not in the map returns without an error
    and leaves the plugin as it was. *)
Theorem config_map_last_write_wins :
  (forall rs st g,
      m_geometryIDToVrepMotionConfigMap (steps (map client rs) st) !! g
      = most_recent g (reverse (omap edit_of rs))
          (m_geometryIDToVrepMotionConfigMap st !! g))
  /\ (forall r st,
         returns (fst (fst (call r st))) = false ->
         m_geometryIDToVrepMotionConfigMap (step (client r) st)
         = m_geometryIDToVrepMotionConfigMap st)
  /\ (forall rs st st',
         calls rs st = Returned st' -> steps (map client rs) st = st')
  /\ (forall st g,
         m_geometryIDToVrepMotionConfigMap st !! g = None ->
         call (call_remove_geometry g) st = (Returned void, st, [])).
Proof.
  split; [| split; [| split]].
  - induction rs as [| r rest IH]; intros st g.
    + reflexivity.
    + cbn [map steps foldl].
      change (foldl (fun st ev => step ev st) (step (client r) st) (map client rest))
        with (steps (map client rest) (step (client r) st)).
      rewrite IH, step_edits, <- most_recent_app. f_equal.
      change (r :: rest) with ([r] ++ rest).
      rewrite omap_app, reverse_app. f_equal.
      cbn. destruct (edit_of r); reflexivity.
  - intros r st Hthrew. destruct r; cbn [call step] in *; try discriminate Hthrew;
      try reflexivity.
    + unfold add_object in *.
      destruct (MotionConfigParamsAddConfig _ _); try discriminate Hthrew;
        reflexivity.
    + unfold remove_geometry_string in *.
      destruct (lexical_cast_int _); try discriminate Hthrew; reflexivity.
    + destruct (run_one st). reflexivity.
  - exact calls_as_steps.
  - intros st g Hnone. cbn [call]. unfold remove_geometry.
    rewrite delete_id by exact Hnone.
    rewrite set_map_same. reflexivity.
Qed.

End Configuration.

(** ** The stored exception *)

Section Fault.

Context `{Collaborators}.

(** No client call and no turn of the driver loop assigns [exceptionPtr]
    or clears [m_shouldStop]. *)
Lemma step_keeps_fault ev st e :
  exceptionPtr st = Some e -> m_shouldStop st = true ->
  exceptionPtr (step ev st) = Some e /\ m_shouldStop (step ev st) = true.
Proof.
  intros Hexc Hstop. destruct ev as [r | received]; cbn [step].
  - destruct r; cbn [call]; try (split; assumption).
    + unfold add_object.
      destruct (MotionConfigParamsAddConfig _ _); split; assumption.
    + unfold remove_geometry_string.
      destruct (lexical_cast_int _); split; assumption.
    + destruct (run_one st). split; assumption.
  - rewrite Hstop. split; assumption.
Qed.

Lemma steps_keep_fault evs st e :
  exceptionPtr st = Some e -> m_shouldStop st = true ->
  exceptionPtr (steps evs st) = Some e /\ m_shouldStop (steps evs st) = true.
Proof.
  revert st. induction evs as [| ev rest IH]; intros st Hexc Hstop.
  - split; assumption.
  - cbn [steps foldl].
    destruct (step_keeps_fault ev st e Hexc Hstop) as [Hexc' Hstop'].
    apply IH; assumption.
Qed.

(** A call that does not read [exceptionPtr] does on a plugin with a stored
    exception what it does on the same plugin without one. *)
Lemma call_ignores_fault r st e :
  exceptionPtr st = Some e -> reads_exceptionPtr r = false ->
  call r st = as_without_fault e (set_exceptionPtr None st) r.
Proof.
  intros Hexc Hr. unfold as_without_fault.
  destruct st. cbn in Hexc. subst.
  destruct r; try discriminate Hr; cbn [call].
  - unfold add_object.
    cbn [m_geometryIDToVrepMotionConfigMap set_exceptionPtr].
    destruct (MotionConfigParamsAddConfig _ _); reflexivity.
  - reflexivity.
  - reflexivity.
  - unfold remove_geometry_string. destruct (lexical_cast_int _); reflexivity.
  - reflexivity.
  - reflexivity.
  - reflexivity.
  - reflexivity.
Qed.

(** C3, amended. When the driver thread's attempt to connect throws, the
    exception is stored and the thread function returns without a single
    turn of its loop.  From then on no client call and no driver step
    clears the stored exception or the stop flag; every call of run_one
    rethrows that same exception; is_active and is_recording answer false;
    and every other client call does exactly what it does on the same
    plugin with no exception stored. *)
Theorem captured_fault_is_terminal st0 e st1 :
  update_try st0 = (Threw e, st1) ->
  let st := snd (update_connect st0) in
  (forall received, update received st0 = (thread_returned, st))
  /\ (forall evs,
        let st' := steps evs st in
        exceptionPtr st' = Some e /\ m_shouldStop st' = true
        /\ call call_run_one st' = (Threw e, st', [])
        /\ call call_is_active st' = (Returned (value false), st', [])
        /\ call call_is_recording st' = (Returned (value false), st', [])
        /\ (forall r, reads_exceptionPtr r = false ->
                      call r st' = as_without_fault e (set_exceptionPtr None st') r)
        /\ forall received, update_loop received st' = (thread_returned, st')).
Proof.
  intros Htry st.
  assert (Hst : update_connect st0
                = (Returned tt, set_m_shouldStop true (set_exceptionPtr (Some e) st1)))
    by (unfold update_connect; rewrite Htry; reflexivity).
  subst st. rewrite Hst. cbn [snd]. split.
  - intros received. unfold update. rewrite Hst.
    destruct received; reflexivity.
  - intros evs.
    destruct (steps_keep_fault evs
                (set_m_shouldStop true (set_exceptionPtr (Some e) st1)) e
                eq_refl eq_refl) as [Hexc Hstop].
    set (st' := steps evs _) in *.
    assert (Hactive : is_active st' = false).
    { unfold is_active. rewrite Hexc.
      rewrite (bool_decide_eq_false_2 (Some e = None)) by discriminate.
      rewrite andb_false_r. reflexivity. }
    split; [exact Hexc |]. split; [exact Hstop |].
    split; [| split; [| split; [| split]]].
    + cbn [call]. unfold run_one. rewrite Hexc. reflexivity.
    + cbn [call]. rewrite Hactive. reflexivity.
    + cbn [call]. unfold is_recording. rewrite Hactive. reflexivity.
    + intros r Hr. apply call_ignores_fault; assumption.
    + intros received. destruct received; cbn [update_loop]; rewrite Hstop;
        reflexivity.
Qed.

End Fault.

(** ** Recording *)

Section Recording.

Context `{Collaborators}.

(** The driver loop appends to the buffer it finds. *)
Lemma driver_records st tracker cur next fbb messages frames :
  opticalTrackerP st = Some tracker ->
  m_receivedFrame st = Some cur ->
  m_nextState st = Some next ->
  m_shouldStop st = false ->
  m_isRecording st = true ->
  m_logFileBufferBuilderP st = Some fbb ->
  m_KUKAiiwaFusionTrackMessageBufferP st = Some messages ->
  let st' := steps (map (fun frame => driver (Returned frame)) frames) st in
  m_logFileBufferBuilderP st'
  = Some (fst (record_from tracker (fbb, messages) frames))
  /\ m_KUKAiiwaFusionTrackMessageBufferP st'
     = Some (snd (record_from tracker (fbb, messages) frames))
  /\ m_saveRecordingThreads st' = m_saveRecordingThreads st.
Proof.
  revert st cur next fbb messages.
  induction frames as [| frame rest IH];
    intros st cur next fbb messages Htracker Hcur Hnext Hstop Hrec Hfbb Hmsg.
  - cbn. auto.
  - cbn [map steps foldl record_from]. cbn [fst snd].
    assert (Hstep :
      exists st1, step (driver (Returned frame)) st = st1
        /\ opticalTrackerP st1 = Some tracker
        /\ m_receivedFrame st1 = Some frame
        /\ m_nextState st1 = Some cur
        /\ m_shouldStop st1 = false
        /\ m_isRecording st1 = true
        /\ m_logFileBufferBuilderP st1 = Some (fst (toFlatBuffer fbb tracker frame))
        /\ m_KUKAiiwaFusionTrackMessageBufferP st1
           = Some (messages ++ [snd (toFlatBuffer fbb tracker frame)])
        /\ m_saveRecordingThreads st1 = m_saveRecordingThreads st).
    { eexists. split; [reflexivity |].
      unfold step, update_iteration. rewrite Hstop, Htracker, Hnext.
      cbn [m_isRecording set_frames]. rewrite Hrec.
      unfold record_frame. cbn [m_logFileBufferBuilderP set_frames].
      rewrite Hfbb.
      cbn [m_logFileBufferBuilderP m_KUKAiiwaFusionTrackMessageBufferP set_frames].
      rewrite Hfbb, Hmsg.
      destruct (toFlatBuffer fbb tracker frame) as [fbb' o].
      cbn. rewrite Htracker, Hcur, Hstop, Hrec. repeat split; reflexivity. }
    destruct Hstep as (st1 & Hst1 & Ht1 & Hc1 & Hn1 & Hs1 & Hr1 & Hf1 & Hm1 & Hth1).
    rewrite Hst1.
    destruct (IH st1 frame cur _ _ Ht1 Hc1 Hn1 Hs1 Hr1 Hf1 Hm1) as (IHf & IHm & IHt).
    unfold steps in IHf, IHm, IHt.
    destruct (toFlatBuffer fbb tracker frame) as [fbb' o].
    cbn [fst snd] in IHf, IHm.
    rewrite IHf, IHm, IHt, Hth1. auto.
Qed.

(** The body of save_recording moves the recording buffer and its messages
    into a save thread, which it appends to the list of save threads and
    does not join; it leaves a fresh empty buffer behind.  The frames the
    driver loop records after that go into the fresh buffer, exactly those
    frames in order, and the data held by the save thread stays as it was
    handed over. *)
Lemma save_recording_flushes st name now :
  let st' := save_recording name now st in
  (exists destination,
      m_saveRecordingThreads st'
      = m_saveRecordingThreads st
        ++ [mkSaveThread (m_logFileBufferBuilderP st)
              (m_KUKAiiwaFusionTrackMessageBufferP st) destination spawned])
  /\ m_logFileBufferBuilderP st' = Some new_FlatBufferBuilder
  /\ m_KUKAiiwaFusionTrackMessageBufferP st' = Some []
  /\ (forall tracker cur next frames,
         opticalTrackerP st = Some tracker ->
         m_receivedFrame st = Some cur ->
         m_nextState st = Some next ->
         m_shouldStop st = false ->
         m_isRecording st = true ->
         let later := steps (map (fun frame => driver (Returned frame)) frames) st' in
         m_logFileBufferBuilderP later = Some (fst (recorded tracker frames))
         /\ m_KUKAiiwaFusionTrackMessageBufferP later
            = Some (snd (recorded tracker frames))
         /\ m_saveRecordingThreads later = m_saveRecordingThreads st').
Proof.
  intros st'. subst st'. repeat split.
  - eexists. reflexivity.
  - eapply (driver_records _ tracker cur next); eauto.
  - eapply (driver_records _ tracker cur next); eauto.
  - eapply (driver_records _ tracker cur next); eauto.
Qed.

(** C8. The save thread made by save_recording writes to the file name it
    was given; for the empty file name it writes to the current date and
    time string followed by "FusionTrack." and the extension "flik". *)
Theorem save_recording_destination st name now :
  exists t,
    m_saveRecordingThreads (save_recording name now st)
    = m_saveRecordingThreads st ++ [t]
    /\ (name = "" -> filename t = now +:+ "FusionTrack." +:+ "flik")
    /\ (name <> "" -> filename t = name).
Proof.
  eexists. split; [reflexivity |]. cbn [filename]. split; intros Hname.
  - rewrite bool_decide_eq_true_2 by exact Hname. reflexivity.
  - rewrite bool_decide_eq_false_2 by exact Hname. reflexivity.
Qed.

(** Every member function that assigns one of the two pointers assigns
    both. *)
Lemma step_keeps_buffers_paired ev st :
  buffers_paired st -> buffers_paired (step ev st).
Proof.
  unfold buffers_paired. intros Hpaired.
  destruct ev as [r | received]; cbn [step].
  - destruct r; cbn [call]; try exact Hpaired.
    + unfold add_object. destruct (MotionConfigParamsAddConfig _ _); exact Hpaired.
    + unfold remove_geometry_string. destruct (lexical_cast_int _); exact Hpaired.
    + destruct (run_one st). exact Hpaired.
    + cbn. split; discriminate.
    + cbn. split; reflexivity.
  - destruct (m_shouldStop st); [exact Hpaired |].
    unfold update_iteration.
    destruct (opticalTrackerP st) as [tracker |]; [| exact Hpaired].
    destruct (m_nextState st); [| exact Hpaired].
    destruct received as [frame | e |]; try exact Hpaired.
    cbn [m_isRecording set_frames].
    destruct (m_isRecording st); [| exact Hpaired].
    unfold record_frame. cbn [m_logFileBufferBuilderP set_frames].
    destruct (m_logFileBufferBuilderP st) as [fbb |] eqn:Hfbb.
    + cbn [m_logFileBufferBuilderP m_KUKAiiwaFusionTrackMessageBufferP set_frames].
      rewrite Hfbb.
      destruct (m_KUKAiiwaFusionTrackMessageBufferP st) as [messages |] eqn:Hmsg.
      * destruct (toFlatBuffer fbb tracker frame). cbn. split; discriminate.
      * cbn. rewrite Hfbb, Hmsg. exact Hpaired.
    + cbn [m_logFileBufferBuilderP m_KUKAiiwaFusionTrackMessageBufferP
           set_recording_buffer].
      destruct (toFlatBuffer new_FlatBufferBuilder tracker frame).
      cbn. split; discriminate.
Qed.

(** C9. A plugin has no recording buffer when it is made and after
    clear_recording, and a turn of the driver loop made while recording is
    off brings none.  save_recording on a plugin without a recording buffer
    hands the null builder to the save thread, whose function dereferences
    it: the process is lost.  With a builder in place (its message vector
    is then in place too, in every state the plugin gets into) the save
    thread writes its file. *)
Theorem save_recording_needs_buffer :
  (forall params recording0,
      m_logFileBufferBuilderP (AtracsysFusionTrackVrepPlugin params recording0)
      = None)
  /\ (forall st, m_logFileBufferBuilderP (clear_recording st) = None)
  /\ (forall st received,
         m_isRecording st = false ->
         m_logFileBufferBuilderP (step (driver received) st)
         = m_logFileBufferBuilderP st)
  /\ (forall st name now,
         m_logFileBufferBuilderP st = None ->
         exists t,
           m_saveRecordingThreads (save_recording name now st)
           = m_saveRecordingThreads st ++ [t]
           /\ save_fbbP t = None
           /\ saveLambdaFunction t = Crashed)
  /\ (forall st name now fbb,
         buffers_paired st ->
         m_logFileBufferBuilderP st = Some fbb ->
         exists t messages,
           m_saveRecordingThreads (save_recording name now st)
           = m_saveRecordingThreads st ++ [t]
           /\ m_KUKAiiwaFusionTrackMessageBufferP st = Some messages
           /\ saveLambdaFunction t = Returned (filename t, Finish fbb messages))
  /\ (forall params recording0,
         buffers_paired (AtracsysFusionTrackVrepPlugin params recording0))
  /\ (forall evs st, buffers_paired st -> buffers_paired (steps evs st)).
Proof.
  split; [reflexivity |]. split; [reflexivity |].
  split; [| split; [| split; [| split]]].
  - intros st received Hrec. cbn [step].
    destruct (m_shouldStop st); [reflexivity |].
    unfold update_iteration.
    destruct (opticalTrackerP st), (m_nextState st), received; try reflexivity.
    cbn [m_isRecording set_frames]. rewrite Hrec. reflexivity.
  - intros st name now Hnone. eexists. split; [reflexivity |].
    unfold saveLambdaFunction.
    cbn [save_fbbP save_KUKAiiwaFusionTrackMessageBufferP].
    rewrite Hnone. split; reflexivity.
  - intros st name now fbb Hpaired Hfbb.
    destruct (m_KUKAiiwaFusionTrackMessageBufferP st) as [messages |] eqn:Hmsg.
    + eexists. exists messages. split; [reflexivity |]. split; [reflexivity |].
      unfold saveLambdaFunction.
      cbn [save_fbbP save_KUKAiiwaFusionTrackMessageBufferP filename].
      rewrite Hfbb, Hmsg. reflexivity.
    + apply Hpaired in Hmsg. congruence.
  - intros params recording0. split; reflexivity.
  - intros evs. induction evs as [| ev rest IH]; intros st Hpaired.
    + exact Hpaired.
    + cbn [steps foldl]. apply IH, step_keeps_buffers_paired, Hpaired.
Qed.

End Recording.

(** ** Shutdown *)

Section Shutdown.

Context `{Collaborators}.

(** With a save thread outstanding, [destruct] joins the driver thread a
    second time, which throws; no save thread is joined. *)
Lemma destruct_joins_driver_twice st t s rest :
  m_driverThread st = Some t -> joinable t = true ->
  m_saveRecordingThreads st = s :: rest ->
  exists st',
    destruct st = (Threw (system_error "Invalid argument"), st')
    /\ m_saveRecordingThreads st' = m_saveRecordingThreads st.
Proof.
  intros Hdriver Hjoinable Hsave. eexists. unfold destruct.
  cbn [m_driverThread set_m_shouldStop]. rewrite Hdriver.
  unfold join at 1. rewrite Hjoinable.
  cbn [m_saveRecordingThreads m_driverThread set_m_driverThread set_m_shouldStop].
  rewrite Hsave. cbn. split; [reflexivity | exact Hsave].
Qed.

End Shutdown.

(** C6. save_recording is to hand the recording to a save thread and
    return without waiting for it.  Its body does hand it over: on the
    plugin that has one frame recorded, the save thread holds that frame,
    is left unjoined, and a fresh empty buffer is in place.  But the
    function is declared to return bool and its body ends without a
    return statement, so the call does not come back with a value. *)
Theorem save_recording_does_not_return :
  let ended := call (H := Demo.world) (call_save_recording "x.flik" "") Demo.recording in
  fst (fst ended) = Crashed
  /\ map save_fbbP (m_saveRecordingThreads (snd (fst ended)))
     = [Some [mkFrame [mkMarker 55 7]]]
  /\ map saveLogThread (m_saveRecordingThreads (snd (fst ended))) = [spawned]
  /\ m_logFileBufferBuilderP (snd (fst ended)) = Some []
  /\ m_KUKAiiwaFusionTrackMessageBufferP (snd (fst ended)) = Some [].
Proof. vm_compute. repeat split; reflexivity. Qed.

(** C7. destruct is to join the driver thread and then every outstanding
    save thread.  It does not: on the plugin that has one save thread
    outstanding, after joining the driver thread it calls join on the driver
    thread again, once per save thread, which throws std::system_error; the
    save thread is never joined and is left joinable. *)
Theorem destruct_leaves_save_threads :
  fst (destruct Demo.saving) = Threw (system_error "Invalid argument")
  /\ m_driverThread (snd (destruct Demo.saving))
     = Some {| joinable := false; finished := true |}
  /\ map saveLogThread (m_saveRecordingThreads (snd (destruct Demo.saving)))
     = [spawned].
Proof. vm_compute. repeat split; reflexivity. Qed.

(** ** The properties on the demo plugin *)

(** C1, as stated, fails on the plugin that reads a frame in which the
    marker of geometry 55 comes after a marker with an unsupported
    configuration: marker 55 has a configuration that meets the inversion
    condition, yet run_one throws in front of it and calls the simulator
    for no marker. *)
Lemma marker_behind_unsupported_gets_no_call :
  ready Demo.blocked (mkFrame [mkMarker 22 3; mkMarker 55 7])
  /\ m_geometryIDToVrepMotionConfigMap Demo.blocked !! geometryId (mkMarker 55 7)
     = Some (make_tuple 10 55 55)
  /\ inverts (m_opticalTrackerBase Demo.blocked) (make_tuple 10 55 55)
  /\ run_one (H := Demo.world) Demo.blocked
     = (Threw (runtime_error unsupported_what), []).
Proof.
  split; [vm_compute; repeat split; eauto |].
  split; [vm_compute; reflexivity |].
  split; [split; reflexivity |].
  vm_compute. reflexivity.
Qed.

Lemma demo_mixed_ready : ready Demo.mixed Demo.three_markers.
Proof. vm_compute. repeat split; eauto. Qed.

Lemma demo_third_frame_unsupported :
  unsupported 10 (make_tuple 22 55 22).
Proof. split; [intros [Hmove _] |]; discriminate. Qed.

Lemma demo_first_marker_supported :
  all_supported (H := Demo.world) (m_opticalTrackerBase Demo.mixed)
    (m_geometryIDToVrepMotionConfigMap Demo.mixed) [mkMarker 55 7].
Proof.
  constructor; [| constructor].
  intros config Hconfig. vm_compute in Hconfig. injection Hconfig as <-.
  intros [Hnot _]. apply Hnot. split; reflexivity.
Qed.

Lemma run_one_inverts_exactly_when_witness :
  run_one (H := Demo.world)
    (steps [@driver Demo.world (Returned (mkFrame [mkMarker 55 7]))] Demo.connected)
  = (Returned tt, [setObjectTransform 10 55 (-7)])
  /\ run_one (H := Demo.world) Demo.mixed
     = (Threw (runtime_error unsupported_what), [setObjectTransform 10 55 (-7)]).
Proof.
  split.
  - exact (proj2 (run_one_inverts_exactly_when (H := Demo.world))
             false 10 55 tt (mkFrame []) [] (mkMarker 55 7) []
             eq_refl eq_refl eq_refl eq_refl eq_refl eq_refl (List.Forall_nil _)).
  - exact (proj1 (proj1 (run_one_inverts_exactly_when (H := Demo.world))
                    Demo.mixed Demo.three_markers [] (mkMarker 55 7)
                    [mkMarker 22 3; mkMarker 55 9] (make_tuple 10 55 55)
                    demo_mixed_ready eq_refl eq_refl (List.Forall_nil _))
             (conj eq_refl eq_refl)).
Defined.

Lemma run_one_unsupported_throws_witness :
  exists n, (n <= 1)%nat
    /\ run_one (H := Demo.world) Demo.mixed
       = (Threw (runtime_error unsupported_what),
          forwarded (H := Demo.world) 10
            (m_geometryIDToVrepMotionConfigMap Demo.mixed)
            (take n [mkMarker 55 7])).
Proof.
  exact (run_one_unsupported_throws (H := Demo.world) Demo.mixed
           Demo.three_markers [mkMarker 55 7] (mkMarker 22 3) [mkMarker 55 9]
           (make_tuple 22 55 22)
           demo_mixed_ready eq_refl eq_refl demo_third_frame_unsupported).
Defined.

Lemma run_one_not_atomic_witness :
  run_one (H := Demo.world) Demo.mixed
  = (Threw (runtime_error unsupported_what), [setObjectTransform 10 55 (-7)]).
Proof.
  exact (run_one_not_atomic (H := Demo.world) Demo.mixed
           Demo.three_markers [mkMarker 55 7] (mkMarker 22 3) [mkMarker 55 9]
           (make_tuple 22 55 22)
           demo_mixed_ready eq_refl demo_first_marker_supported eq_refl
           demo_third_frame_unsupported).
Defined.

Lemma run_one_before_connection_witness :
  call (H := Demo.world) call_run_one Demo.started
  = (Returned void, Demo.started, []).
Proof.
  exact (run_one_before_connection (H := Demo.world) Demo.started eq_refl).
Defined.

(** C4, as stated, fails on the plugin whose device is absent: the
    connection is not established and run_one throws. *)
Lemma run_one_raises_before_connection :
  isConnectionEstablished_ Demo.faulted = false
  /\ call (H := Demo.world) call_run_one Demo.faulted
     = (Threw (device_error 1), Demo.faulted, []).
Proof. split; reflexivity. Qed.

Lemma captured_fault_is_terminal_witness :
  let st' := steps [@client Demo.world call_clear_objects;
                    @driver Demo.world (Returned (mkFrame []));
                    @client Demo.world call_start_recording] Demo.faulted in
  exceptionPtr st' = Some (device_error 1) /\ m_shouldStop st' = true
  /\ call call_run_one st' = (Threw (device_error 1), st', [])
  /\ call call_is_active st' = (Returned (value false), st', [])
  /\ call call_is_recording st' = (Returned (value false), st', [])
  /\ (forall r, reads_exceptionPtr r = false ->
                call r st'
                = as_without_fault (device_error 1) (set_exceptionPtr None st') r)
  /\ forall received, update_loop received st' = (thread_returned, st').
Proof.
  exact (proj2 (captured_fault_is_terminal (H := Demo.world)
                  (snd (construct
                          (AtracsysFusionTrackVrepPlugin emptyDefaultParams false)))
                  (device_error 1) _ eq_refl)
           [@client Demo.world call_clear_objects;
            @driver Demo.world (Returned (mkFrame []));
            @client Demo.world call_start_recording]).
Defined.

(** C3, as stated, fails on the plugin whose device is absent: with the
    exception stored, start_recording and clear_objects return as usual and
    do not throw it. *)
Lemma calls_ignore_stored_exception :
  exceptionPtr Demo.faulted = Some (device_error 1)
  /\ fst (fst (call (H := Demo.world) call_start_recording Demo.faulted))
     = Returned (value true)
  /\ fst (fst (call (H := Demo.world) call_clear_objects Demo.faulted))
     = Returned void.
Proof. repeat split; reflexivity. Qed.

Lemma config_map_last_write_wins_witness :
  let st' := steps (map (@client Demo.world) Demo.rough_edits) Demo.connected in
  m_geometryIDToVrepMotionConfigMap st' !! 55 = Some (make_tuple 55 10 55)
  /\ m_geometryIDToVrepMotionConfigMap st' !! 22 = None
  /\ call (H := Demo.world) (call_remove_geometry 7) st' = (Returned void, st', []).
Proof.
  intros st'.
  pose proof (proj1 (config_map_last_write_wins (H := Demo.world))
                Demo.rough_edits Demo.connected) as Hlookup.
  split; [| split].
  - refine (eq_trans (Hlookup 55) _). vm_compute. reflexivity.
  - refine (eq_trans (Hlookup 22) _). vm_compute. reflexivity.
  - apply (proj2 (proj2 (proj2 (config_map_last_write_wins (H := Demo.world)))) st' 7).
    refine (eq_trans (Hlookup 7) _). vm_compute. reflexivity.
Defined.

Lemma save_recording_flushes_witness :
  let st' := save_recording (H := Demo.world) "x.flik" "" Demo.recording in
  let later := steps [@driver Demo.world (Returned (mkFrame [mkMarker 55 8]));
                      @driver Demo.world (Returned (mkFrame []))] st' in
  m_logFileBufferBuilderP later = Some [mkFrame [mkMarker 55 8]; mkFrame []]
  /\ m_KUKAiiwaFusionTrackMessageBufferP later = Some [0%nat; 1%nat]
  /\ m_saveRecordingThreads later = m_saveRecordingThreads st'.
Proof.
  exact (proj2 (proj2 (proj2 (save_recording_flushes (H := Demo.world)
                                Demo.recording "x.flik" "")))
           tt (mkFrame [mkMarker 55 7]) (mkFrame [])
           [mkFrame [mkMarker 55 8]; mkFrame []]
           eq_refl eq_refl eq_refl eq_refl eq_refl).
Defined.

Lemma save_recording_destination_witness :
  exists t,
    m_saveRecordingThreads (save_recording (H := Demo.world) "" "2018-01-01-" Demo.recording)
    = m_saveRecordingThreads Demo.recording ++ [t]
    /\ filename t = "2018-01-01-FusionTrack.flik".
Proof.
  destruct (save_recording_destination (H := Demo.world) Demo.recording ""
              "2018-01-01-") as (t & Hthreads & Hempty & _).
  exists t. split; [exact Hthreads | exact (Hempty eq_refl)].
Defined.

Lemma save_recording_needs_buffer_witness :
  exists t,
    m_saveRecordingThreads (save_recording (H := Demo.world) "x.flik" "" Demo.connected)
    = m_saveRecordingThreads Demo.connected ++ [t]
    /\ save_fbbP t = None
    /\ saveLambdaFunction t = Crashed.
Proof.
  exact (proj1 (proj2 (proj2 (proj2 (save_recording_needs_buffer (H := Demo.world)))))
           Demo.connected "x.flik" "" eq_refl).
Defined.

(** ** More on run_one *)

Section RunOneMore.

Context `{Collaborators}.

Lemma run_one_markers_configured base configMap markers :
  run_one_markers base configMap markers
  = run_one_markers base configMap (List.filter (configured configMap) markers).
Proof.
  induction markers as [| marker rest IH]; [reflexivity |].
  cbn [List.filter]. unfold configured at 1.
  destruct (configMap !! geometryId marker) as [config |] eqn:Hconfig.
  - rewrite bool_decide_eq_true_2 by eauto.
    cbn [run_one_markers]. rewrite Hconfig, IH. reflexivity.
  - rewrite bool_decide_eq_false_2 by (intros [? ?]; discriminate).
    cbn [run_one_markers]. rewrite Hconfig. exact IH.
Qed.

(** X1. run_one passes over the markers whose geometry id has no
    configuration: it ends as it would on the frame without them, and on a
    frame that holds only such markers it returns without a simulator
    call. *)
Theorem run_one_passes_over_unconfigured st frame :
  ready st frame ->
  run_one st
  = run_one_markers (m_opticalTrackerBase st)
      (m_geometryIDToVrepMotionConfigMap st)
      (List.filter (configured (m_geometryIDToVrepMotionConfigMap st))
         (Markers frame))
  /\ (Forall (fun marker =>
                m_geometryIDToVrepMotionConfigMap st !! geometryId marker = None)
             (Markers frame) ->
      run_one st = (Returned tt, [])).
Proof.
  intros Hready. rewrite (run_one_ready _ _ Hready). split.
  - apply run_one_markers_configured.
  - apply run_one_markers_unconfigured.
Qed.

Lemma run_one_markers_returned base configMap markers :
  fst (run_one_markers base configMap markers) = Returned tt ->
  all_supported base configMap markers.
Proof.
  unfold all_supported.
  induction markers as [| marker rest IH]; intros Hend; [constructor |].
  cbn [run_one_markers] in Hend.
  destruct (configMap !! geometryId marker) as [config |] eqn:Hconfig.
  - destruct (decide (unsupported base config)) as [Hbad | Hgood].
    + rewrite transformToApply_unsupported in Hend by assumption. discriminate.
    + rewrite transformToApply_supported in Hend by assumption.
      destruct (run_one_markers base configMap rest) as [end_ made].
      constructor; [| exact (IH Hend)].
      intros config' Hconfig'. congruence.
  - constructor; [| exact (IH Hend)]. intros config' Hconfig'. congruence.
Qed.

(** X2. With no stored exception and the connection established, run_one
    returns exactly when no configured marker of the frame has an
    unsupported configuration, and then it has made one simulator call per
    configured marker, in marker order; when it does not return it throws
    the runtime error for unsupported configurations. *)
Theorem run_one_returns_iff_supported st frame :
  ready st frame ->
  (fst (run_one st) = Returned tt
   <-> all_supported (m_opticalTrackerBase st)
         (m_geometryIDToVrepMotionConfigMap st) (Markers frame))
  /\ (fst (run_one st) = Returned tt ->
      snd (run_one st)
      = forwarded (m_opticalTrackerBase st)
          (m_geometryIDToVrepMotionConfigMap st) (Markers frame))
  /\ (fst (run_one st) <> Returned tt ->
      fst (run_one st) = Threw (runtime_error unsupported_what)).
Proof.
  intros Hready. rewrite (run_one_ready _ _ Hready). split; [split |].
  - apply run_one_markers_returned.
  - intros Hall. rewrite (run_one_markers_supported _ _ _ Hall). reflexivity.
  - split.
    + intros Hend. apply run_one_markers_returned in Hend.
      rewrite (run_one_markers_supported _ _ _ Hend). reflexivity.
    + intros Hnot.
      destruct (run_one_markers_end (m_opticalTrackerBase st)
                  (m_geometryIDToVrepMotionConfigMap st) (Markers frame));
        [contradiction | assumption].
Qed.

Lemma run_one_markers_delete base configMap g markers :
  run_one_markers base (delete g configMap) markers
  = run_one_markers base configMap (List.filter (other_geometry g) markers).
Proof.
  induction markers as [| marker rest IH]; [reflexivity |].
  cbn [List.filter run_one_markers]. unfold other_geometry at 1.
  destruct (Z.eqb_spec (geometryId marker) g) as [Heq | Hne]; cbn [negb].
  - rewrite Heq, lookup_delete_eq. exact IH.
  - cbn [run_one_markers]. rewrite lookup_delete_ne by congruence.
    rewrite IH. reflexivity.
Qed.

Lemma ready_set_map configMap st frame :
  ready st frame -> ready (set_map configMap st) frame.
Proof. intros Hready. exact Hready. Qed.

(** X3. Removing a geometry has the effect on run_one of taking that
    geometry's markers out of the frame, and after clear_objects run_one
    returns without a simulator call, whatever the frame holds. *)
Theorem run_one_after_removal st frame g :
  ready st frame ->
  run_one (remove_geometry g st)
  = run_one_markers (m_opticalTrackerBase st)
      (m_geometryIDToVrepMotionConfigMap st)
      (List.filter (other_geometry g) (Markers frame))
  /\ run_one (clear_objects st) = (Returned tt, []).
Proof.
  intros Hready. split.
  - rewrite (run_one_ready (remove_geometry g st) frame)
      by (apply ready_set_map, Hready).
    apply run_one_markers_delete.
  - rewrite (run_one_ready (clear_objects st) frame)
      by (apply ready_set_map, Hready).
    apply run_one_markers_unconfigured.
    apply Forall_forall. intros marker _. apply lookup_empty.
Qed.

End RunOneMore.

(** ** More on the driver loop and the recording *)

Section DriverLoop.

Context `{Collaborators}.

Lemma driver_keeps_refl st : driver_keeps st st.
Proof. unfold driver_keeps. repeat split; reflexivity. Qed.

Lemma driver_keeps_trans st1 st2 st3 :
  driver_keeps st1 st2 -> driver_keeps st2 st3 -> driver_keeps st1 st3.
Proof. unfold driver_keeps. intuition congruence. Qed.

(** A turn of the driver loop, however it ends, assigns nothing but the two
    frames and the recording buffer. *)
Lemma driver_step_keeps received st :
  driver_keeps st (step (driver received) st).
Proof.
  cbn [step]. destruct (m_shouldStop st) eqn:Hstop; [apply driver_keeps_refl |].
  unfold update_iteration.
  destruct (opticalTrackerP st) as [tracker |] eqn:Htracker;
    [| apply driver_keeps_refl].
  destruct (m_nextState st); [| apply driver_keeps_refl].
  destruct received as [frame | e |]; try apply driver_keeps_refl.
  cbn [m_isRecording set_frames].
  destruct (m_isRecording st) eqn:Hrec.
  - unfold record_frame. cbn [m_logFileBufferBuilderP set_frames].
    destruct (m_logFileBufferBuilderP st) as [fbb |] eqn:Hfbb.
    + cbn [m_logFileBufferBuilderP m_KUKAiiwaFusionTrackMessageBufferP set_frames].
      rewrite Hfbb.
      destruct (m_KUKAiiwaFusionTrackMessageBufferP st) as [messages |].
      * destruct (toFlatBuffer fbb tracker frame).
        unfold driver_keeps. cbn. repeat split; congruence.
      * unfold driver_keeps. cbn. repeat split; congruence.
    + cbn [m_logFileBufferBuilderP m_KUKAiiwaFusionTrackMessageBufferP
           set_recording_buffer].
      destruct (toFlatBuffer new_FlatBufferBuilder tracker frame).
      unfold driver_keeps. cbn. repeat split; congruence.
  - unfold driver_keeps. cbn. repeat split; congruence.
Qed.

Lemma record_from_cons tracker start frame frames :
  record_from tracker start (frame :: frames)
  = record_from tracker (record_from tracker start [frame]) frames.
Proof. reflexivity. Qed.

Lemma record_from_length tracker start frames :
  length (snd (record_from tracker start frames))
  = (length (snd start) + length frames)%nat.
Proof.
  revert start. induction frames as [| frame rest IH]; intros start.
  - cbn. lia.
  - rewrite record_from_cons, IH. cbn.
    destruct (toFlatBuffer (fst start) tracker frame). cbn.
    rewrite length_app. cbn. lia.
Qed.

(** With the builder in place, the two pointers hold [recording_so_far]. *)
Lemma recording_so_far_held st :
  buffers_paired st -> is_Some (m_logFileBufferBuilderP st) ->
  m_logFileBufferBuilderP st = Some (fst (recording_so_far st))
  /\ m_KUKAiiwaFusionTrackMessageBufferP st = Some (snd (recording_so_far st)).
Proof.
  unfold buffers_paired, recording_so_far. intros [_ Hback] [fbb Hfbb].
  destruct (m_KUKAiiwaFusionTrackMessageBufferP st) as [messages |].
  - rewrite Hfbb. split; reflexivity.
  - rewrite Hback in Hfbb by reflexivity. discriminate.
Qed.

(** A turn of the loop that receives a frame, from a state in which the
    loop can run. *)
Lemma driver_turn st tracker frame :
  running st -> opticalTrackerP st = Some tracker ->
  let st' := step (driver (Returned frame)) st in
  update_iteration (Returned frame) st = (Returned tt, st')
  /\ running st'
  /\ m_receivedFrame st' = Some frame
  /\ m_nextState st' = m_receivedFrame st
  /\ (m_isRecording st = true ->
      is_Some (m_logFileBufferBuilderP st')
      /\ recording_so_far st'
         = record_from tracker (recording_so_far st) [frame])
  /\ (m_isRecording st = false ->
      m_logFileBufferBuilderP st' = m_logFileBufferBuilderP st
      /\ m_KUKAiiwaFusionTrackMessageBufferP st'
         = m_KUKAiiwaFusionTrackMessageBufferP st).
Proof.
  intros (Hstop & _ & [cur Hcur] & [next Hnext] & Hpaired) Htracker st'.
  subst st'. unfold running, buffers_paired, recording_so_far in *.
  cbn [step]. rewrite Hstop. unfold update_iteration.
  rewrite Htracker, Hnext. cbn [m_isRecording set_frames].
  destruct (m_isRecording st) eqn:Hrec.
  - unfold record_frame. cbn [m_logFileBufferBuilderP set_frames].
    destruct (m_logFileBufferBuilderP st) as [fbb |] eqn:Hfbb.
    + cbn [m_logFileBufferBuilderP m_KUKAiiwaFusionTrackMessageBufferP set_frames].
      rewrite Hfbb.
      destruct (m_KUKAiiwaFusionTrackMessageBufferP st) as [messages |] eqn:Hmsg.
      * unfold record_from. cbn [foldl fst snd].
        destruct (toFlatBuffer fbb tracker frame) as [fbb' o]. cbn.
        rewrite Hstop, Htracker, Hcur.
        repeat split; eauto; discriminate.
      * exfalso. assert (Hnone : Some fbb = None) by (apply Hpaired; reflexivity).
        discriminate.
    + cbn [m_logFileBufferBuilderP m_KUKAiiwaFusionTrackMessageBufferP
           set_recording_buffer].
      assert (Hmsg : m_KUKAiiwaFusionTrackMessageBufferP st = None)
        by (apply Hpaired; reflexivity).
      rewrite Hmsg. unfold record_from. cbn [foldl fst snd].
      destruct (toFlatBuffer new_FlatBufferBuilder tracker frame) as [fbb' o].
      cbn. rewrite Hstop, Htracker, Hcur.
      repeat split; eauto; discriminate.
  - cbn. rewrite Hstop, Htracker, Hcur.
    repeat split; eauto; try discriminate; apply Hpaired.
Qed.

(** Several turns, one per received frame. *)
Lemma driver_turns st tracker frames :
  running st -> opticalTrackerP st = Some tracker ->
  let st' := steps (map (fun frame => driver (Returned frame)) frames) st in
  update_loop (map Returned frames) st = (thread_in_receive, st')
  /\ running st'
  /\ driver_keeps st st'
  /\ m_receivedFrame st' = last (m_receivedFrame st :: map Some frames) ≫= id
  /\ (m_isRecording st = true ->
      recording_so_far st' = record_from tracker (recording_so_far st) frames
      /\ (is_Some (m_logFileBufferBuilderP st) \/ frames <> [] ->
          is_Some (m_logFileBufferBuilderP st')))
  /\ (m_isRecording st = false ->
      m_logFileBufferBuilderP st' = m_logFileBufferBuilderP st
      /\ m_KUKAiiwaFusionTrackMessageBufferP st'
         = m_KUKAiiwaFusionTrackMessageBufferP st).
Proof.
  revert st. induction frames as [| frame rest IH]; intros st Hrun Htracker.
  - cbn [map steps foldl update_loop].
    destruct Hrun as (Hstop & Hrest). rewrite Hstop.
    split; [reflexivity |]. split; [split; assumption |].
    split; [apply driver_keeps_refl |]. split; [reflexivity |].
    split; intros _; split; try reflexivity. intros [Hsome | Hne]; [exact Hsome |].
    contradiction.
  - destruct (driver_turn st tracker frame Hrun Htracker)
      as (Hiter & Hrun1 & Hcur1 & _ & Hon1 & Hoff1).
    pose proof (driver_step_keeps (Returned frame) st) as Hkeep1.
    set (st1 := step (driver (Returned frame)) st) in *.
    assert (Htracker1 : opticalTrackerP st1 = Some tracker).
    { destruct Hkeep1 as (_ & _ & Ht & _). rewrite Ht. exact Htracker. }
    assert (Hrec1 : m_isRecording st1 = m_isRecording st).
    { destruct Hkeep1 as (_ & _ & _ & _ & _ & _ & Hr & _). exact Hr. }
    destruct (IH st1 Hrun1 Htracker1) as (Hloop & Hrun' & Hkeep' & Hcur' & Hon' & Hoff').
    cbn [map steps foldl]. fold st1.
    change (foldl (fun st ev => step ev st) st1
              (map (fun frame => driver (Returned frame)) rest))
      with (steps (map (fun frame => driver (Returned frame)) rest) st1).
    split; [| split; [exact Hrun' | split; [| split; [| split]]]].
    + cbn [update_loop]. destruct Hrun as (Hstop & _). rewrite Hstop, Hiter.
      exact Hloop.
    + eapply driver_keeps_trans; eassumption.
    + rewrite Hcur', Hcur1. cbn [map]. destruct rest; reflexivity.
    + intros Hrec. rewrite Hrec in Hrec1.
      destruct (Hon' Hrec1) as [Hsofar Hsome]. destruct (Hon1 Hrec) as [Hsome1 Hsofar1].
      split.
      * rewrite Hsofar, Hsofar1. reflexivity.
      * intros _. apply Hsome. left. exact Hsome1.
    + intros Hrec. rewrite Hrec in Hrec1.
      destruct (Hoff' Hrec1) as [Hb Hm]. destruct (Hoff1 Hrec) as [Hb1 Hm1].
      rewrite Hb, Hm, Hb1, Hm1. split; reflexivity.
Qed.

End DriverLoop.

Section DriverLoopProperties.

Context `{Collaborators}.

(** X4. After the driver loop has received a sequence of frames, the frame
    the client reads is the last one received, whether or not the frames were
    recorded, and the loop has assigned nothing but the frames and the
    recording buffer; run_one then forwards the markers of that last
    frame. *)
Theorem driver_publishes_latest_frame st frames frame :
  running st ->
  let st' := steps (map (fun frame => driver (Returned frame)) (frames ++ [frame])) st in
  m_receivedFrame st' = Some frame
  /\ running st'
  /\ driver_keeps st st'
  /\ (exceptionPtr st = None -> isConnectionEstablished_ st = true ->
      allHandlesSet st = true ->
      run_one st'
      = run_one_markers (m_opticalTrackerBase st)
          (m_geometryIDToVrepMotionConfigMap st) (Markers frame)).
Proof.
  intros Hrun st'.
  destruct Hrun as (Hstop & [tracker Htracker] & Hrest).
  destruct (driver_turns st tracker (frames ++ [frame])
              (conj Hstop (conj (ex_intro _ tracker Htracker) Hrest)) Htracker)
    as (_ & Hrun' & Hkeep & Hcur & _).
  fold st' in Hrun', Hkeep, Hcur.
  assert (Hlast : m_receivedFrame st' = Some frame).
  { rewrite Hcur, map_app, app_comm_cons. cbn [map]. rewrite last_snoc.
    reflexivity. }
  split; [exact Hlast |]. split; [exact Hrun' |]. split; [exact Hkeep |].
  intros Hexc Hconn Hhandles.
  destruct Hkeep as (_ & Hbase & _ & Hh & Hc & _ & _ & He & _ & _ & Hmap).
  destruct Hrun' as (_ & Htracker' & _ & Hnext' & _).
  rewrite <- Hbase, <- Hmap. apply run_one_ready.
  unfold ready. rewrite He, Hc, Hh, Hexc, Hconn, Hhandles.
  repeat split; assumption.
Qed.

(** X5. Frames received while recording is on, starting without a buffer,
    are recorded one by one into a fresh builder; save_recording after at
    least one such frame makes a save thread whose function writes the
    finished log of exactly those frames, one message per frame. *)
Theorem recorded_frames_are_saved st tracker frames name now :
  running st -> opticalTrackerP st = Some tracker ->
  m_isRecording st = true ->
  m_logFileBufferBuilderP st = None ->
  frames <> [] ->
  let st' := steps (map (fun frame => driver (Returned frame)) frames) st in
  exists t,
    m_saveRecordingThreads (save_recording name now st')
    = m_saveRecordingThreads st ++ [t]
    /\ saveLambdaFunction t
       = Returned (filename t,
                   Finish (fst (recorded tracker frames))
                     (snd (recorded tracker frames)))
    /\ length (snd (recorded tracker frames)) = length frames.
Proof.
  intros Hrun Htracker Hrec Hnone Hframes st'.
  destruct (driver_turns st tracker frames Hrun Htracker)
    as (_ & Hrun' & Hkeep & _ & Hon & _).
  fold st' in Hrun', Hkeep, Hon.
  destruct (Hon Hrec) as [Hsofar Hsome].
  assert (Hstart : recording_so_far st = (new_FlatBufferBuilder, [])).
  { unfold recording_so_far. rewrite Hnone. reflexivity. }
  rewrite Hstart in Hsofar. fold (recorded tracker frames) in Hsofar.
  destruct (recording_so_far_held st') as [Hfbb Hmsg].
  { destruct Hrun' as (_ & _ & _ & _ & Hpaired). exact Hpaired. }
  { apply Hsome. right. exact Hframes. }
  rewrite Hsofar in Hfbb, Hmsg.
  destruct Hkeep as (_ & _ & _ & _ & _ & _ & _ & _ & _ & Hthreads & _).
  eexists. split; [| split].
  - cbn [save_recording m_saveRecordingThreads set_recording_buffer
         set_m_saveRecordingThreads].
    rewrite Hthreads. reflexivity.
  - unfold saveLambdaFunction.
    cbn [save_fbbP save_KUKAiiwaFusionTrackMessageBufferP filename].
    rewrite Hfbb, Hmsg. reflexivity.
  - unfold recorded. rewrite record_from_length. reflexivity.
Qed.

Lemma save_recording_running name now st :
  running st -> running (save_recording name now st).
Proof.
  intros (Hstop & Htracker & Hcur & Hnext & _).
  unfold running, buffers_paired. cbn.
  repeat split; trivial; discriminate.
Qed.

(** X6. Two calls of save_recording split the recording: the first save
    thread holds what the buffer held at the first call, the second holds
    exactly the frames recorded between the two calls, and the buffer left
    behind holds exactly the frames recorded after the second call. *)
Theorem successive_saves_partition st tracker name1 now1 name2 now2 frames1 frames2 :
  running st -> opticalTrackerP st = Some tracker ->
  m_isRecording st = true ->
  let received frames := map (fun frame => driver (Returned frame)) frames in
  let st1 := steps (received frames1) (save_recording name1 now1 st) in
  let st2 := steps (received frames2) (save_recording name2 now2 st1) in
  (exists destination1 destination2,
      m_saveRecordingThreads st2
      = m_saveRecordingThreads st
        ++ [mkSaveThread (m_logFileBufferBuilderP st)
              (m_KUKAiiwaFusionTrackMessageBufferP st) destination1 spawned;
            mkSaveThread (Some (fst (recorded tracker frames1)))
              (Some (snd (recorded tracker frames1))) destination2 spawned])
  /\ m_logFileBufferBuilderP st2 = Some (fst (recorded tracker frames2))
  /\ m_KUKAiiwaFusionTrackMessageBufferP st2 = Some (snd (recorded tracker frames2)).
Proof.
  intros Hrun Htracker Hrec received st1 st2.
  (* after the first call *)
  pose proof (save_recording_running name1 now1 st Hrun) as HrunA.
  destruct (driver_turns (save_recording name1 now1 st) tracker frames1 HrunA Htracker)
    as (_ & Hrun1 & Hkeep1 & _ & Hon1 & _).
  fold (received frames1) in Hrun1, Hkeep1, Hon1. fold st1 in Hrun1, Hkeep1, Hon1.
  destruct (Hon1 Hrec) as [Hsofar1 Hsome1].
  change (recording_so_far (save_recording name1 now1 st))
    with (new_FlatBufferBuilder, @nil Offset) in Hsofar1.
  fold (recorded tracker frames1) in Hsofar1.
  destruct (recording_so_far_held st1) as [Hfbb1 Hmsg1].
  { destruct Hrun1 as (_ & _ & _ & _ & Hpaired). exact Hpaired. }
  { apply Hsome1. left. eexists. reflexivity. }
  rewrite Hsofar1 in Hfbb1, Hmsg1.
  assert (Htracker1 : opticalTrackerP st1 = Some tracker).
  { destruct Hkeep1 as (_ & _ & Ht & _). rewrite Ht. exact Htracker. }
  assert (Hrec1 : m_isRecording st1 = true).
  { destruct Hkeep1 as (_ & _ & _ & _ & _ & _ & Hr & _). rewrite Hr. exact Hrec. }
  assert (Hthreads1 : m_saveRecordingThreads st1
                      = m_saveRecordingThreads (save_recording name1 now1 st)).
  { destruct Hkeep1 as (_ & _ & _ & _ & _ & _ & _ & _ & _ & Hth & _). exact Hth. }
  (* after the second call *)
  pose proof (save_recording_running name2 now2 st1 Hrun1) as HrunB.
  destruct (driver_turns (save_recording name2 now2 st1) tracker frames2 HrunB Htracker1)
    as (_ & Hrun2 & Hkeep2 & _ & Hon2 & _).
  fold (received frames2) in Hrun2, Hkeep2, Hon2. fold st2 in Hrun2, Hkeep2, Hon2.
  destruct (Hon2 Hrec1) as [Hsofar2 Hsome2].
  change (recording_so_far (save_recording name2 now2 st1))
    with (new_FlatBufferBuilder, @nil Offset) in Hsofar2.
  fold (recorded tracker frames2) in Hsofar2.
  destruct (recording_so_far_held st2) as [Hfbb2 Hmsg2].
  { destruct Hrun2 as (_ & _ & _ & _ & Hpaired). exact Hpaired. }
  { apply Hsome2. left. eexists. reflexivity. }
  rewrite Hsofar2 in Hfbb2, Hmsg2.
  split; [| split; assumption].
  destruct Hkeep2 as (_ & _ & _ & _ & _ & _ & _ & _ & _ & Hthreads2 & _).
  rewrite Hthreads2.
  cbn [save_recording m_saveRecordingThreads set_recording_buffer
       set_m_saveRecordingThreads].
  rewrite Hthreads1, Hfbb1, Hmsg1.
  cbn [save_recording m_saveRecordingThreads set_recording_buffer
       set_m_saveRecordingThreads].
  rewrite <- app_assoc. cbn [app]. eexists. eexists. reflexivity.
Qed.

Lemma save_calls_cons ev evs :
  save_calls (ev :: evs) = (save_calls [ev] + save_calls evs)%nat.
Proof.
  unfold save_calls. cbn [List.filter].
  destruct ev as [[] |]; reflexivity.
Qed.

Lemma step_save_threads ev st :
  exists new,
    m_saveRecordingThreads (step ev st) = m_saveRecordingThreads st ++ new
    /\ length new = save_calls [ev].
Proof.
  destruct ev as [r | received].
  - destruct r; cbn [step call];
      try (exists []; split; [rewrite app_nil_r; reflexivity | reflexivity]).
    + exists []. split; [| reflexivity]. rewrite app_nil_r.
      unfold add_object. destruct (MotionConfigParamsAddConfig _ _); reflexivity.
    + exists []. split; [| reflexivity]. rewrite app_nil_r.
      unfold remove_geometry_string. destruct (lexical_cast_int _); reflexivity.
    + exists []. split; [| reflexivity]. rewrite app_nil_r.
      destruct (run_one st); reflexivity.
    + eexists [_]. split; reflexivity.
  - exists []. split; [| reflexivity]. rewrite app_nil_r.
    destruct (driver_step_keeps received st)
      as (_ & _ & _ & _ & _ & _ & _ & _ & _ & Hthreads & _).
    exact Hthreads.
Qed.

(** X7. Save threads are never taken off the list: whatever the client
    calls and the driver loop do, the list of save threads afterwards is
    the list before, followed by one thread per save_recording call. *)
Theorem save_threads_accumulate evs st :
  exists new,
    m_saveRecordingThreads (steps evs st) = m_saveRecordingThreads st ++ new
    /\ length new = save_calls evs.
Proof.
  revert st. induction evs as [| ev rest IH]; intros st.
  - exists []. split; [rewrite app_nil_r; reflexivity | reflexivity].
  - destruct (step_save_threads ev st) as (new1 & Hthreads1 & Hlen1).
    destruct (IH (step ev st)) as (new2 & Hthreads2 & Hlen2).
    exists (new1 ++ new2). split.
    + cbn [steps foldl]. unfold steps in Hthreads2.
      rewrite Hthreads2, Hthreads1, app_assoc. reflexivity.
    + rewrite length_app, save_calls_cons. lia.
Qed.

(** X8. The recording and status calls and run_one itself leave what
    run_one does unchanged; no client call assigns the two frames; and a
    turn of the driver loop, however it ends, leaves the configuration map,
    the tracker base, the flags and the stored exception alone. *)
Theorem client_and_driver_keep_apart :
  (forall r st,
      edits_configuration r = false ->
      run_one (step (client r) st) = run_one st)
  /\ (forall r st,
         m_receivedFrame (step (client r) st) = m_receivedFrame st
         /\ m_nextState (step (client r) st) = m_nextState st)
  /\ (forall received st, driver_keeps st (step (driver received) st)).
Proof.
  split; [| split].
  - intros r st Hr. destruct r; try discriminate Hr; cbn [step call];
      try reflexivity.
    destruct (run_one st) as [end_ made] eqn:Hrun. cbn [fst snd]. exact Hrun.
  - intros r st. destruct r; cbn [step call]; try (split; reflexivity).
    + unfold add_object. destruct (MotionConfigParamsAddConfig _ _);
        split; reflexivity.
    + unfold remove_geometry_string. destruct (lexical_cast_int _);
        split; reflexivity.
    + destruct (run_one st); split; reflexivity.
  - intros received st. apply driver_step_keeps.
Qed.

Lemma update_loop_received frames rest st tracker :
  running st -> opticalTrackerP st = Some tracker ->
  update_loop (map Returned frames ++ rest) st
  = update_loop rest (steps (map (fun frame => driver (Returned frame)) frames) st).
Proof.
  revert st. induction frames as [| frame more IH]; intros st Hrun Htracker.
  - reflexivity.
  - destruct (driver_turn st tracker frame Hrun Htracker) as (Hiter & Hrun1 & _).
    pose proof (driver_step_keeps (Returned frame) st) as (_ & _ & Ht & _).
    cbn [map app update_loop steps foldl].
    destruct Hrun as (Hstop & _). rewrite Hstop, Hiter.
    apply IH; [exact Hrun1 | rewrite Ht; exact Htracker].
Qed.

(** X9. The driver loop stores no exception of its own: when receive
    throws after some frames were received, the exception leaves the
    thread function and the process is lost, with exceptionPtr as it was
    and the plugin as the frames received before left it.  While frames
    keep arriving, the loop goes on, one turn per frame. *)
Theorem receive_exception_is_not_stored st frames e rest :
  running st ->
  let st' := steps (map (fun frame => driver (Returned frame)) frames) st in
  update_loop (map Returned frames ++ Threw e :: rest) st = (process_lost, st')
  /\ exceptionPtr st' = exceptionPtr st
  /\ update_loop (map Returned frames) st = (thread_in_receive, st').
Proof.
  intros Hrun st'.
  pose proof Hrun as (Hstop & [tracker Htracker] & _).
  destruct (driver_turns st tracker frames Hrun Htracker)
    as (Hloop & Hrun' & Hkeep & _).
  fold st' in Hloop, Hrun', Hkeep.
  split; [| split; [| exact Hloop]].
  - rewrite (update_loop_received frames _ st tracker Hrun Htracker). fold st'.
    destruct Hrun' as (Hstop' & [tracker' Htracker'] & _ & [next' Hnext'] & _).
    cbn [update_loop]. rewrite Hstop'. unfold update_iteration.
    rewrite Htracker', Hnext'. reflexivity.
  - destruct Hkeep as (_ & _ & _ & _ & _ & _ & _ & He & _). exact He.
Qed.

End DriverLoopProperties.

(** ** Start, status and shutdown *)

Section Lifecycle.

Context `{Collaborators}.

Lemma is_active_true st :
  is_active st = true
  <-> allHandlesSet st = true /\ exceptionPtr st = None
      /\ is_Some (opticalTrackerP st) /\ isConnectionEstablished_ st = true.
Proof.
  unfold is_active. rewrite !andb_true_iff, !bool_decide_eq_true. tauto.
Qed.

Lemma step_keeps_frames_allocated ev st :
  frames_allocated st -> frames_allocated (step ev st).
Proof.
  intros Hinv.
  assert (Hswap : forall st',
             isConnectionEstablished_ st' = isConnectionEstablished_ st ->
             opticalTrackerP st' = opticalTrackerP st ->
             is_Some (m_receivedFrame st') ->
             m_nextState st' = m_receivedFrame st ->
             frames_allocated st').
  { intros st' Hc Ht Hcur Hnext Hconn. rewrite Hc in Hconn.
    destruct (Hinv Hconn) as (Htracker & Hcur0 & _).
    rewrite Ht, Hnext. auto. }
  destruct ev as [r | received]; cbn [step].
  - destruct r; cbn [call]; try exact Hinv.
    + unfold add_object. destruct (MotionConfigParamsAddConfig _ _); exact Hinv.
    + unfold remove_geometry_string. destruct (lexical_cast_int _); exact Hinv.
    + destruct (run_one st). exact Hinv.
  - destruct (m_shouldStop st); [exact Hinv |].
    unfold update_iteration.
    destruct (opticalTrackerP st) as [tracker |] eqn:Htracker; [| exact Hinv].
    destruct (m_nextState st) as [next |]; [| exact Hinv].
    destruct received as [frame | e |]; try exact Hinv.
    cbn [m_isRecording set_frames].
    destruct (m_isRecording st).
    + unfold record_frame. cbn [m_logFileBufferBuilderP set_frames].
      destruct (m_logFileBufferBuilderP st) as [fbb |] eqn:Hfbb.
      * cbn [m_logFileBufferBuilderP m_KUKAiiwaFusionTrackMessageBufferP set_frames].
        rewrite Hfbb.
        destruct (m_KUKAiiwaFusionTrackMessageBufferP st) as [messages |].
        -- destruct (toFlatBuffer fbb tracker frame).
           apply Hswap; cbn; eauto.
        -- intros Hconn. destruct (Hinv Hconn) as (_ & Hcur & _).
           cbn. eauto.
      * cbn [m_logFileBufferBuilderP m_KUKAiiwaFusionTrackMessageBufferP
             set_recording_buffer].
        destruct (toFlatBuffer new_FlatBufferBuilder tracker frame).
        apply Hswap; cbn; eauto.
    + apply Hswap; cbn; eauto.
Qed.

(** X10. In every state the plugin gets into, the tracker and both frames
    are there once the connection flag is up: the constructor starts that
    way and construct, the connection attempt, every client call, every
    turn of the driver loop and destruct keep it so.  Hence the
    BOOST_VERIFY of run_one never fails and run_one never dereferences a
    null frame: it returns or throws. *)
Theorem run_one_never_loses_the_process :
  (forall params recording0,
      frames_allocated (AtracsysFusionTrackVrepPlugin params recording0))
  /\ (forall st, frames_allocated st -> frames_allocated (snd (construct st)))
  /\ (forall st, frames_allocated st -> frames_allocated (snd (update_connect st)))
  /\ (forall st evs, frames_allocated st -> frames_allocated (steps evs st))
  /\ (forall st, frames_allocated st -> frames_allocated (snd (destruct st)))
  /\ (forall st, frames_allocated st -> fst (run_one st) <> Crashed).
Proof.
  split; [| split; [| split; [| split; [| split]]]].
  - intros params recording0 Hconn. discriminate Hconn.
  - intros st Hinv. unfold construct, initHandles.
    destruct (getHandle _); try exact Hinv.
    destruct (MotionConfigParamsToVrepHandleConfigMap _); try exact Hinv.
    cbn [m_driverThread set_allHandlesSet set_map set_m_opticalTrackerBase].
    destruct (m_driverThread st) as [old |]; [destruct (joinable old) |];
      exact Hinv.
  - intros st Hinv. unfold update_connect, update_try.
    destruct (new_FusionTrack _) as [tracker | e |]; try exact Hinv.
    destruct (makeFramePtr tracker) as [frame1 | e |].
    + intros _. cbn. eauto.
    + unfold frames_allocated in *. cbn. intros Hconn.
      destruct (Hinv Hconn) as (_ & Hcur & Hnext). eauto.
    + unfold frames_allocated in *. cbn. intros Hconn.
      destruct (Hinv Hconn) as (_ & Hcur & Hnext). eauto.
  - intros st evs. revert st. induction evs as [| ev rest IH]; intros st Hinv.
    + exact Hinv.
    + cbn [steps foldl]. apply IH, step_keeps_frames_allocated, Hinv.
  - intros st Hinv. unfold destruct.
    cbn [m_driverThread set_m_shouldStop].
    destruct (m_driverThread st) as [t |].
    + unfold join. destruct (joinable t).
      * cbn [m_saveRecordingThreads m_driverThread set_m_driverThread
             set_m_shouldStop].
        destruct (destruct_saveThreads _ _). exact Hinv.
      * exact Hinv.
    + cbn [m_saveRecordingThreads m_driverThread set_m_shouldStop].
      destruct (destruct_saveThreads _ _). exact Hinv.
  - intros st Hinv. unfold run_one.
    destruct (exceptionPtr st); [discriminate |].
    destruct (isConnectionEstablished_ st) eqn:Hconn; [| discriminate].
    destruct (allHandlesSet st); [| discriminate]. cbn [negb orb].
    destruct (Hinv Hconn) as ([tracker ->] & [cur ->] & [next ->]).
    destruct (run_one_markers_end (m_opticalTrackerBase st)
                (m_geometryIDToVrepMotionConfigMap st) (Markers cur)) as [-> | ->];
      discriminate.
Qed.

(** X11. After the constructor, construct and the driver thread's attempt to
    connect, is_active answers true exactly when construct returned (every
    name resolved) and the connection attempt returned. *)
Theorem is_active_after_start params recording0 :
  let st0 := AtracsysFusionTrackVrepPlugin params recording0 in
  let st1 := snd (construct st0) in
  let st2 := snd (update_connect st1) in
  is_active st2 = true
  <-> fst (construct st0) = Returned tt /\ fst (update_try st1) = Returned tt.
Proof.
  intros st0 st1 st2. rewrite is_active_true. subst st2 st1.
  unfold construct, initHandles.
  destruct (getHandle (OpticalTrackerBase (params_ st0))) as [base | e |].
  - destruct (MotionConfigParamsToVrepHandleConfigMap _) as [configMap | e |].
    + cbn [m_driverThread set_allHandlesSet set_map set_m_opticalTrackerBase
           st0 AtracsysFusionTrackVrepPlugin fst snd].
      unfold update_connect, update_try.
      cbn [params_ set_m_driverThread set_allHandlesSet set_map
           set_m_opticalTrackerBase AtracsysFusionTrackVrepPlugin].
      destruct (new_FusionTrack _) as [tracker | e |].
      * destruct (makeFramePtr tracker) as [frame1 | e |]; cbn.
        -- split; [intros _; split; reflexivity | intros _; eauto].
        -- split; [intros (_ & Hexc & _); discriminate
                  | intros [_ Htry]; discriminate].
        -- split; [intros (_ & _ & _ & Hconn); discriminate
                  | intros [_ Htry]; discriminate].
      * cbn. split; [intros (_ & Hexc & _); discriminate
                    | intros [_ Htry]; discriminate].
      * cbn. split; [intros (_ & _ & _ & Hconn); discriminate
                    | intros [_ Htry]; discriminate].
    + cbn [fst snd]. split; [| intros [Hc _]; discriminate].
      intros (Hhandles & _).
      unfold update_connect, update_try in Hhandles.
      destruct (new_FusionTrack _) as [tracker | e' |];
        [destruct (makeFramePtr tracker) |..]; discriminate Hhandles.
    + cbn [fst snd]. split; [| intros [Hc _]; discriminate].
      intros (Hhandles & _).
      unfold update_connect, update_try in Hhandles.
      destruct (new_FusionTrack _) as [tracker | e' |];
        [destruct (makeFramePtr tracker) |..]; discriminate Hhandles.
  - cbn [fst snd]. split; [| intros [Hc _]; discriminate].
    intros (Hhandles & _).
    unfold update_connect, update_try in Hhandles.
    destruct (new_FusionTrack _) as [tracker | e' |];
      [destruct (makeFramePtr tracker) |..]; discriminate Hhandles.
  - cbn [fst snd]. split; [| intros [Hc _]; discriminate].
    intros (Hhandles & _).
    unfold update_connect, update_try in Hhandles.
    destruct (new_FusionTrack _) as [tracker | e' |];
      [destruct (makeFramePtr tracker) |..]; discriminate Hhandles.
Qed.

End Lifecycle.

Section StartAndStop.

Context `{Collaborators}.

(** X12. When initHandles throws inside construct (a name of the
    parameters does not resolve or a geometry id does not parse), construct
    throws the same exception and starts no driver thread; the handles are
    not marked as set and the configuration map, the stored exception and
    the connection flag are as before.  On a plugin that had not been
    started, is_active then answers false and run_one stays a call that
    returns without doing anything. *)
Theorem construct_failure_starts_nothing st e :
  fst (initHandles st) = Threw e ->
  let st' := snd (construct st) in
  fst (construct st) = Threw e
  /\ m_driverThread st' = m_driverThread st
  /\ allHandlesSet st' = allHandlesSet st
  /\ m_geometryIDToVrepMotionConfigMap st' = m_geometryIDToVrepMotionConfigMap st
  /\ exceptionPtr st' = exceptionPtr st
  /\ isConnectionEstablished_ st' = isConnectionEstablished_ st
  /\ (allHandlesSet st = false -> exceptionPtr st = None ->
      is_active st' = false /\ run_one st' = (Returned tt, [])).
Proof.
  intros Hinit st'. subst st'.
  assert (Hfields : fst (construct st) = Threw e
                    /\ m_driverThread (snd (construct st)) = m_driverThread st
                    /\ allHandlesSet (snd (construct st)) = allHandlesSet st
                    /\ m_geometryIDToVrepMotionConfigMap (snd (construct st))
                       = m_geometryIDToVrepMotionConfigMap st
                    /\ exceptionPtr (snd (construct st)) = exceptionPtr st
                    /\ isConnectionEstablished_ (snd (construct st))
                       = isConnectionEstablished_ st).
  { unfold construct. unfold initHandles in *.
    destruct (getHandle _) as [base | e0 |].
    - destruct (MotionConfigParamsToVrepHandleConfigMap _) as [configMap | e0 |];
        try discriminate Hinit.
      injection Hinit as <-. repeat split; reflexivity.
    - injection Hinit as <-. repeat split; reflexivity.
    - discriminate Hinit. }
  destruct Hfields as (Hthrow & Hthread & Hhandles & Hmap & Hexc & Hconn).
  split; [exact Hthrow |].
  split; [exact Hthread |]. split; [exact Hhandles |]. split; [exact Hmap |].
  split; [exact Hexc |]. split; [exact Hconn |].
  intros Hnot Hnone. split.
  - unfold is_active. rewrite Hhandles, Hnot. reflexivity.
  - unfold run_one. rewrite Hexc, Hnone, Hhandles, Hnot, orb_true_r. reflexivity.
Qed.

Lemma initHandles_again st st1 st2 :
  initHandles st = (Returned tt, st1) -> params_ st2 = params_ st ->
  fst (initHandles st2) = Returned tt
  /\ m_driverThread (snd (initHandles st2)) = m_driverThread st2.
Proof.
  unfold initHandles. intros Hinit Hparams. rewrite Hparams.
  destruct (getHandle _) as [base | e |]; try discriminate Hinit.
  destruct (MotionConfigParamsToVrepHandleConfigMap _) as [configMap | e |];
    try discriminate Hinit.
  split; reflexivity.
Qed.

(** X13. construct is not to be called twice: after a construct that
    returned, a second construct builds the handles again, starts another
    thread and then destroys the handle of the first driver thread, which
    is still joinable, so the process is lost. *)
Theorem construct_twice_loses_the_process st st1 :
  construct st = (Returned tt, st1) ->
  fst (construct st1) = Crashed.
Proof.
  intros Hconstruct. unfold construct in Hconstruct.
  destruct (initHandles st) as [[[] | e |] st0] eqn:Hinit;
    try discriminate Hconstruct.
  assert (Hst1 : st1 = set_m_driverThread (Some spawned) st0).
  { destruct (m_driverThread st0) as [old |]; [destruct (joinable old) |];
      try discriminate Hconstruct; injection Hconstruct as <-; reflexivity. }
  assert (Hparams : params_ st1 = params_ st).
  { rewrite Hst1. unfold initHandles in Hinit.
    destruct (getHandle _); try discriminate Hinit.
    destruct (MotionConfigParamsToVrepHandleConfigMap _); try discriminate Hinit.
    injection Hinit as <-. reflexivity. }
  destruct (initHandles_again st st0 st1 Hinit Hparams) as [Hagain Hthread].
  unfold construct.
  destruct (initHandles st1) as [end_ st1'].
  cbn [fst snd] in Hagain, Hthread. rewrite Hagain, Hthread, Hst1.
  reflexivity.
Qed.

(** X14. On a plugin with a running driver thread and no save thread,
    destruct raises the stop flag, joins the driver thread and returns.  A
    second destruct, which is what the destructor calls after an explicit
    destruct, joins the same handle again and throws std::system_error.  On
    a plugin that was never started destruct only raises the stop flag. *)
Theorem destruct_once_not_twice :
  (forall st t,
      m_driverThread st = Some t -> joinable t = true ->
      m_saveRecordingThreads st = [] ->
      let st1 := snd (destruct st) in
      fst (destruct st) = Returned tt
      /\ m_shouldStop st1 = true
      /\ m_driverThread st1 = Some {| joinable := false; finished := true |}
      /\ fst (destruct st1) = Threw (system_error "Invalid argument"))
  /\ (forall st,
         m_driverThread st = None -> m_saveRecordingThreads st = [] ->
         destruct st = (Returned tt, set_m_driverThread None (set_m_shouldStop true st))).
Proof.
  split.
  - intros st t Hthread Hjoinable Hsave st1. subst st1.
    assert (Hfirst : destruct st
                     = (Returned tt,
                        set_m_driverThread
                          (Some {| joinable := false; finished := true |})
                          (set_m_driverThread
                             (Some {| joinable := false; finished := true |})
                             (set_m_shouldStop true st)))).
    { unfold destruct. cbn [m_driverThread set_m_shouldStop]. rewrite Hthread.
      unfold join. rewrite Hjoinable.
      cbn [m_saveRecordingThreads m_driverThread set_m_driverThread
           set_m_shouldStop].
      rewrite Hsave. reflexivity. }
    rewrite Hfirst. cbn [fst snd].
    split; [reflexivity |]. split; [reflexivity |]. split; [reflexivity |].
    reflexivity.
  - intros st Hthread Hsave. unfold destruct.
    cbn [m_driverThread set_m_shouldStop]. rewrite Hthread.
    cbn [m_saveRecordingThreads m_driverThread set_m_shouldStop].
    rewrite Hsave, Hthread. reflexivity.
Qed.

Lemma set_map_set_map configMap configMap' (st : Plugin) :
  set_map configMap (set_map configMap' st) = set_map configMap st.
Proof. reflexivity. Qed.

Lemma AddConfigs_as_calls configurations configMap st :
  calls (map call_add_object configurations) (set_map configMap st)
  = configMap' ← AddConfigs configurations configMap; mret (set_map configMap' st).
Proof.
  revert configMap. induction configurations as [| mcp rest IH]; intros configMap.
  - reflexivity.
  - cbn [map calls call AddConfigs]. unfold add_object.
    cbn [m_geometryIDToVrepMotionConfigMap set_map].
    destruct (MotionConfigParamsAddConfig mcp configMap) as [configMap1 | e |];
      cbn [mbind outcome_bind]; try reflexivity.
    change (set_map configMap1 (set_map configMap st)) with (set_map configMap1 st).
    apply IH.
Qed.

Lemma calls_most_recent rs st st' g :
  calls rs st = Returned st' ->
  m_geometryIDToVrepMotionConfigMap st' !! g
  = most_recent g (reverse (omap edit_of rs))
      (m_geometryIDToVrepMotionConfigMap st !! g).
Proof.
  revert st. induction rs as [| r rest IH]; intros st Hcalls.
  - injection Hcalls as <-. reflexivity.
  - cbn [calls] in Hcalls.
    destruct (call r st) as [[[reply | e |] st1] made] eqn:Hcall;
      try discriminate.
    rewrite (IH _ Hcalls), (call_edits _ _ _ _ _ g Hcall).
    rewrite <- most_recent_app. f_equal.
    change (r :: rest) with ([r] ++ rest).
    rewrite omap_app, reverse_app. f_equal.
    cbn. destruct (edit_of r); reflexivity.
Qed.

(** X15. The map that initHandles builds from the parameter vector is the
    map that add_object calls, one per entry in vector order, build on an
    empty map, and it fails as they fail; so for a geometry id that occurs
    more than once in the vector the last entry counts, and an id that does
    not occur has no entry. *)
Theorem params_vector_as_adds configurations st :
  calls (map call_add_object configurations) (clear_objects st)
  = (configMap ← MotionConfigParamsToVrepHandleConfigMap configurations;
     mret (set_map configMap st))
  /\ (forall configMap g,
         MotionConfigParamsToVrepHandleConfigMap configurations = Returned configMap ->
         configMap !! g
         = most_recent g (reverse (omap edit_of (map call_add_object configurations)))
             None).
Proof.
  assert (Hcalls : calls (map call_add_object configurations) (clear_objects st)
                   = configMap ← MotionConfigParamsToVrepHandleConfigMap configurations;
                     mret (set_map configMap st))
    by apply AddConfigs_as_calls.
  split; [exact Hcalls |].
  intros configMap g Hmap. rewrite Hmap in Hcalls.
  cbn [mbind outcome_bind mret outcome_ret] in Hcalls.
  rewrite <- (lookup_empty (M := gmap Z) (A := VrepMotionConfigTuple) g).
  apply (calls_most_recent _ _ _ g) in Hcalls. exact Hcalls.
Qed.

End StartAndStop.

Section DriverThreadAsAWhole.

Context `{Collaborators}.

(** X16. When the driver thread connects (the device constructor and
    makeFramePtr return) on a plugin that was not told to stop, the thread
    function raises the connection flag, stores no exception, and then takes
    one turn of its loop per frame the device delivers, ending up waiting in
    receive. *)
Theorem update_connects_then_loops st st1 frames :
  m_shouldStop st = false -> buffers_paired st ->
  update_try st = (Returned tt, st1) ->
  update (map Returned frames) st
  = (thread_in_receive,
     steps (map (fun frame => driver (Returned frame)) frames) st1)
  /\ isConnectionEstablished_ st1 = true
  /\ exceptionPtr st1 = exceptionPtr st
  /\ running st1.
Proof.
  intros Hstop Hpaired Htry.
  assert (Hst1 : isConnectionEstablished_ st1 = true
                 /\ exceptionPtr st1 = exceptionPtr st
                 /\ running st1).
  { unfold update_try in Htry.
    destruct (new_FusionTrack _) as [tracker | e |]; try discriminate Htry.
    destruct (makeFramePtr tracker) as [frame1 | e |]; try discriminate Htry.
    injection Htry as <-. unfold running, buffers_paired. cbn.
    repeat split; eauto; apply Hpaired. }
  split; [| exact Hst1].
  destruct Hst1 as (_ & _ & Hrun).
  unfold update, update_connect. rewrite Htry.
  pose proof Hrun as (_ & [tracker Htracker] & _).
  exact (proj1 (driver_turns st1 tracker frames Hrun Htracker)).
Qed.

End DriverThreadAsAWhole.

(** ** The further properties on the demo plugin *)

Lemma demo_connected_running : running Demo.connected.
Proof.
  unfold running, buffers_paired. repeat split; eauto.
Qed.

Lemma demo_armed_running : running Demo.armed.
Proof.
  unfold running, buffers_paired. repeat split; eauto.
Qed.

Lemma demo_recording_running : running Demo.recording.
Proof.
  unfold running, buffers_paired. vm_compute. repeat split; eauto; discriminate.
Qed.

Lemma demo_tracking_ready : ready Demo.tracking (mkFrame [mkMarker 55 7]).
Proof. vm_compute. repeat split; eauto. Qed.

Lemma demo_strangers_ready :
  ready Demo.strangers (mkFrame [mkMarker 7 1; mkMarker 8 2]).
Proof. vm_compute. repeat split; eauto. Qed.

Lemma run_one_passes_over_unconfigured_witness :
  run_one (H := Demo.world) Demo.strangers = (Returned tt, []).
Proof.
  apply (proj2 (run_one_passes_over_unconfigured (H := Demo.world)
                  Demo.strangers (mkFrame [mkMarker 7 1; mkMarker 8 2])
                  demo_strangers_ready)).
  repeat constructor.
Defined.

Lemma run_one_returns_iff_supported_witness :
  fst (run_one (H := Demo.world) Demo.tracking) = Returned tt.
Proof.
  apply (proj2 (proj1 (run_one_returns_iff_supported (H := Demo.world)
                         Demo.tracking (mkFrame [mkMarker 55 7])
                         demo_tracking_ready))).
  constructor; [| constructor].
  intros config Hconfig. vm_compute in Hconfig. injection Hconfig as <-.
  intros [Hnot _]. apply Hnot. split; reflexivity.
Defined.

Lemma run_one_after_removal_witness :
  run_one (H := Demo.world) (remove_geometry 22 Demo.mixed)
  = run_one_markers (H := Demo.world) (m_opticalTrackerBase Demo.mixed)
      (m_geometryIDToVrepMotionConfigMap Demo.mixed)
      (List.filter (other_geometry (H := Demo.world) 22) (Markers Demo.three_markers))
  /\ run_one (H := Demo.world) (clear_objects Demo.mixed) = (Returned tt, []).
Proof.
  exact (run_one_after_removal (H := Demo.world) Demo.mixed Demo.three_markers 22
           demo_mixed_ready).
Defined.

Lemma driver_publishes_latest_frame_witness :
  m_receivedFrame
    (steps [@driver Demo.world (Returned (mkFrame []));
            @driver Demo.world (Returned (mkFrame [mkMarker 55 7]))]
       Demo.connected)
  = Some (mkFrame [mkMarker 55 7]).
Proof.
  exact (proj1 (driver_publishes_latest_frame (H := Demo.world) Demo.connected
                  [mkFrame []] (mkFrame [mkMarker 55 7]) demo_connected_running)).
Defined.

Lemma recorded_frames_are_saved_witness :
  exists t,
    m_saveRecordingThreads
      (save_recording (H := Demo.world) "x.flik" ""
         (steps [@driver Demo.world (Returned (mkFrame [mkMarker 55 7]));
                 @driver Demo.world (Returned (mkFrame []))] Demo.armed))
    = m_saveRecordingThreads Demo.armed ++ [t]
    /\ saveLambdaFunction t
       = Returned (filename t, [mkFrame [mkMarker 55 7]; mkFrame []])
    /\ length (snd (recorded (H := Demo.world) tt [mkFrame [mkMarker 55 7]; mkFrame []]))
       = 2%nat.
Proof.
  refine (recorded_frames_are_saved (H := Demo.world) Demo.armed tt
            [mkFrame [mkMarker 55 7]; mkFrame []] "x.flik" ""
            demo_armed_running eq_refl eq_refl eq_refl _).
  discriminate.
Defined.

Lemma successive_saves_partition_witness :
  let received frames := map (fun frame => @driver Demo.world (Returned frame)) frames in
  let st1 := steps (received [mkFrame [mkMarker 55 8]])
               (save_recording (H := Demo.world) "a.flik" "" Demo.recording) in
  let st2 := steps (received [mkFrame []; mkFrame [mkMarker 22 1]])
               (save_recording (H := Demo.world) "b.flik" "" st1) in
  m_logFileBufferBuilderP st2 = Some [mkFrame []; mkFrame [mkMarker 22 1]]
  /\ m_KUKAiiwaFusionTrackMessageBufferP st2 = Some [0%nat; 1%nat].
Proof.
  exact (proj2 (successive_saves_partition (H := Demo.world) Demo.recording tt
                  "a.flik" "" "b.flik" "" [mkFrame [mkMarker 55 8]]
                  [mkFrame []; mkFrame [mkMarker 22 1]]
                  demo_recording_running eq_refl eq_refl)).
Defined.

Lemma client_and_driver_keep_apart_witness :
  run_one (H := Demo.world)
    (step (@client Demo.world (call_save_recording "x.flik" "")) Demo.mixed)
  = run_one Demo.mixed.
Proof.
  exact (proj1 (client_and_driver_keep_apart (H := Demo.world))
           (call_save_recording "x.flik" "") Demo.mixed eq_refl).
Defined.

Lemma receive_exception_is_not_stored_witness :
  fst (update_loop (H := Demo.world)
         [Returned (mkFrame [mkMarker 55 7]); Threw (device_error 2)] Demo.connected)
  = process_lost
  /\ exceptionPtr
       (snd (update_loop (H := Demo.world)
               [Returned (mkFrame [mkMarker 55 7]); Threw (device_error 2)]
               Demo.connected))
     = None.
Proof.
  destruct (receive_exception_is_not_stored (H := Demo.world) Demo.connected
              [mkFrame [mkMarker 55 7]] (device_error 2) [] demo_connected_running)
    as (Hloop & Hexc & _).
  split.
  - exact (f_equal fst Hloop).
  - exact (eq_trans (f_equal (fun ended => exceptionPtr (snd ended)) Hloop) Hexc).
Defined.

Lemma demo_mixed_frames_allocated : frames_allocated Demo.mixed.
Proof. intros _. vm_compute. repeat split; eauto. Qed.

Lemma run_one_never_loses_the_process_witness :
  fst (run_one (H := Demo.world) Demo.mixed) <> Crashed.
Proof.
  exact (proj2 (proj2 (proj2 (proj2 (proj2
           (run_one_never_loses_the_process (H := Demo.world))))))
           Demo.mixed demo_mixed_frames_allocated).
Defined.

Lemma construct_failure_starts_nothing_witness :
  fst (construct (H := Demo.world) Demo.nameless)
  = Threw (runtime_error "getHandle: Handle is not valid.")
  /\ m_driverThread (snd (construct (H := Demo.world) Demo.nameless)) = None
  /\ is_active (snd (construct (H := Demo.world) Demo.nameless)) = false
  /\ run_one (snd (construct (H := Demo.world) Demo.nameless)) = (Returned tt, []).
Proof.
  destruct (construct_failure_starts_nothing (H := Demo.world) Demo.nameless
              (runtime_error "getHandle: Handle is not valid.") eq_refl)
    as (Hthrow & Hthread & _ & _ & _ & _ & Hidle).
  destruct (Hidle eq_refl eq_refl) as [Hactive Hrun].
  split; [exact Hthrow | split; [exact Hthread | split; [exact Hactive | exact Hrun]]].
Defined.

Lemma construct_twice_loses_the_process_witness :
  fst (construct (H := Demo.world) Demo.started) = Crashed.
Proof.
  exact (construct_twice_loses_the_process (H := Demo.world)
           (AtracsysFusionTrackVrepPlugin defaultParams false) Demo.started eq_refl).
Defined.

Lemma destruct_once_not_twice_witness :
  fst (destruct (H := Demo.world) Demo.connected) = Returned tt
  /\ fst (destruct (snd (destruct (H := Demo.world) Demo.connected)))
     = Threw (system_error "Invalid argument").
Proof.
  destruct (proj1 (destruct_once_not_twice (H := Demo.world)) Demo.connected spawned
              eq_refl eq_refl eq_refl) as (Hfirst & _ & _ & Hsecond).
  split; [exact Hfirst | exact Hsecond].
Defined.

Lemma params_vector_as_adds_witness :
  exists configMap,
    MotionConfigParamsToVrepHandleConfigMap (H := Demo.world) Demo.twice_55
    = Returned configMap
    /\ configMap !! 55 = Some (make_tuple 10 55 55)
    /\ configMap !! 7 = None.
Proof.
  destruct (MotionConfigParamsToVrepHandleConfigMap (H := Demo.world) Demo.twice_55)
    as [configMap | e |] eqn:Hmap.
  - exists configMap. split; [reflexivity |].
    pose proof (proj2 (params_vector_as_adds (H := Demo.world) Demo.twice_55
                         Demo.connected) configMap) as Hlookup.
    split.
    + refine (eq_trans (Hlookup 55 Hmap) _). vm_compute. reflexivity.
    + refine (eq_trans (Hlookup 7 Hmap) _). vm_compute. reflexivity.
  - assert (Hreturns : returns (MotionConfigParamsToVrepHandleConfigMap
                                  (H := Demo.world) Demo.twice_55) = true)
      by (vm_compute; reflexivity).
    rewrite Hmap in Hreturns. discriminate Hreturns.
  - assert (Hreturns : returns (MotionConfigParamsToVrepHandleConfigMap
                                  (H := Demo.world) Demo.twice_55) = true)
      by (vm_compute; reflexivity).
    rewrite Hmap in Hreturns. discriminate Hreturns.
Defined.

Lemma update_connects_then_loops_witness :
  update (H := Demo.world) [Returned (mkFrame [mkMarker 55 7])] Demo.started
  = (thread_in_receive,
     steps [@driver Demo.world (Returned (mkFrame [mkMarker 55 7]))]
       (snd (update_try (H := Demo.world) Demo.started))).
Proof.
  refine (proj1 (update_connects_then_loops (H := Demo.world) Demo.started
                   (snd (update_try (H := Demo.world) Demo.started))
                   [mkFrame [mkMarker 55 7]] eq_refl _ eq_refl)).
  split; reflexivity.
Defined.

Lemma is_active_after_start_witness :
  is_active (H := Demo.world) Demo.connected = true.
Proof.
  exact (proj2 (is_active_after_start (H := Demo.world) defaultParams false)
           (conj eq_refl eq_refl)).
Defined.
